(** * nova-ecs-editor: component metadata store, editor registry and query helpers

    A shallow embedding of
      - src/decorators/component.ts        (module [Decorators]),
      - src/plugins/EditorComponentPlugin.ts (module [EditorComponentRegistry]
        and [discoverAndRegisterComponents]),
      - src/utils/ComponentUtils.ts        (module [ComponentUtils]),
    followed by the properties of the registration protocol
    (declare, register, query).

    Modelling decisions.
      - A [ComponentType] is a class constructor used only as a map key with
        identity semantics; it is a [positive].
      - The two [WeakMap]s are not enumerable: they are [gmap]s.  The
        insertion-ordered [Map] and [Set] objects are association lists and
        lists ([JsMap], [JsSet]) because [Array.from] exposes their order.
      - The inner [Map<string, PropertyMetadata>] objects are shared between
        the property store and the registrations that were built from them, so
        they live in a heap of map objects and are referred to by location.
      - An object built from [{}] and used as a [Record<string, X>] has its
        own properties in a [gmap string X] and inherits the members of
        [Object.prototype]: a read finds them, and a call that uses one as
        an array throws a [TypeError] ([Completion]).
      - [order] is an integer ([Z]); the numeric hints [min], [max], [step]
        are carried verbatim and never computed on ([Q]).
      - [console.log] has no effect on any value and is left out. *)

From Stdlib Require Import ZArith QArith.
From stdpp Require Import gmap strings list fin_maps sorting.

Local Open Scope string_scope.
Local Open Scope list_scope.

(** ** JavaScript values and containers *)

Abbreviation ComponentType := positive.

(** [x !== false] on a [boolean | undefined]. *)
Definition not_false (x : option bool) : bool :=
  match x with
  | Some false => false
  | _ => true
  end.

(** [x || d] on a [string | undefined]: the empty string is falsy. *)
Definition string_or (x : option string) (d : string) : string :=
  match x with
  | Some s => if decide (s = "") then d else s
  | None => d
  end.

(** [x || d] on a [number | undefined]: zero is falsy. *)
Definition number_or (x : option Z) (d : Z) : Z :=
  match x with
  | Some n => if decide (n = 0%Z) then d else n
  | None => d
  end.

(** Truthiness of a [string | undefined]. *)
Definition truthy_string (x : option string) : bool :=
  match x with
  | Some s => if decide (s = "") then false else true
  | None => false
  end.

(** The insertion-ordered [Map]: [set] on a present key overwrites the value
    in place, on an absent key appends the entry. *)
Module JsMap.
Section ops.
Context {K V : Type} `{EqDecision K}.

Fixpoint set (k : K) (v : V) (m : list (K * V)) : list (K * V) :=
  match m with
  | [] => [(k, v)]
  | (k', v') :: m' =>
      if decide (k' = k) then (k, v) :: m' else (k', v') :: set k v m'
  end.

Fixpoint get (k : K) (m : list (K * V)) : option V :=
  match m with
  | [] => None
  | (k', v') :: m' => if decide (k' = k) then Some v' else get k m'
  end.

Definition has (k : K) (m : list (K * V)) : bool :=
  match get k m with
  | Some _ => true
  | None => false
  end.

Definition values (m : list (K * V)) : list V := m.*2.

Definition entries (m : list (K * V)) : list (K * V) := m.

Definition size (m : list (K * V)) : nat := length m.

Definition clear (m : list (K * V)) : list (K * V) := [].
End ops.
End JsMap.

(** The insertion-ordered [Set]. *)
Module JsSet.
Section ops.
Context {A : Type} `{EqDecision A}.

Definition add (x : A) (s : list A) : list A :=
  if decide (x ∈ s) then s else s ++ [x].

Definition clear (s : list A) : list A := [].
End ops.
End JsSet.

(** [Array.prototype.sort(compareFn)].  The sort is stable, and for a
    consistent comparator the sorted array is unique, so this insertion
    sort computes the array every conforming engine produces: an element
    is placed before the first one it does not compare greater than. *)
Module JsArray.
Section ops.
Context {A : Type} (compareFn : A → A → Z).

Fixpoint insert (x : A) (l : list A) : list A :=
  match l with
  | [] => [x]
  | y :: l' =>
      if (compareFn x y <=? 0)%Z then x :: y :: l' else y :: insert x l'
  end.

Definition sort (l : list A) : list A := foldr insert [] l.
End ops.
End JsArray.

(** ** Objects made by [{}] and used as dictionaries

    An object literal inherits the members of [Object.prototype].  A read
    [obj[k]] finds an own property first and an inherited member
    otherwise.  The inherited members are functions, but for [__proto__]:
    an accessor whose getter returns [Object.prototype] itself and whose
    setter ignores a value that is neither an object nor null.  All of
    them are truthy and none has a [push].  The own properties of such an
    object are a [gmap]. *)

(** The names of the members of [Object.prototype] (Annex B included). *)
Definition Object_prototype_names : list string :=
  ["constructor"; "__defineGetter__"; "__defineSetter__"; "hasOwnProperty";
   "__lookupGetter__"; "__lookupSetter__"; "isPrototypeOf";
   "propertyIsEnumerable"; "toString"; "valueOf"; "__proto__";
   "toLocaleString"].

Definition inherited (k : string) : bool :=
  bool_decide (k ∈ Object_prototype_names).

(** How a call completes: with a value, or by throwing a [TypeError]. *)
Inductive Completion (A : Type) : Type :=
  | Normal (a : A)
  | TypeError.
Arguments Normal {A} a.
Arguments TypeError {A}.

(** A [for (const x of xs)] loop over the state [acc] whose body may
    throw: the first throw ends the loop. *)
Fixpoint for_of {A S} (body : S → A → Completion S) (xs : list A) (acc : S)
    : Completion S :=
  match xs with
  | [] => Normal acc
  | x :: xs' =>
      match body acc x with
      | Normal acc' => for_of body xs' acc'
      | TypeError => TypeError
      end
  end.

(** The values a property of the tally of [getStatistics] can hold: a
    number, or the string [+ 1] makes of an inherited function, which is
    the source text of the built-in function [Object.prototype[name]]
    followed by [ones] characters [1]. *)
Inductive JsValue :=
  | JsNumber (n : nat)
  | JsFunctionText (name : string) (ones : nat).

(** [categories[k] = (categories[k] || 0) + 1] on an object made by [{}].
    An own number is incremented ([n || 0] is [n]); an own string is
    truthy and gets a [1] appended; with no own property the read finds
    nothing ([undefined || 0] is [0]), or an inherited function, whose
    source text gets a [1] appended and becomes an own property, or for
    [__proto__] the prototype object, and then the assignment goes to the
    setter, which ignores the string. *)
Definition add_one (k : string) (categories : gmap string JsValue)
    : gmap string JsValue :=
  match categories !! k with
  | Some (JsNumber n) => <[k := JsNumber (n + 1)]> categories
  | Some (JsFunctionText name ones) =>
      <[k := JsFunctionText name (ones + 1)]> categories
  | None =>
      if decide (k = "__proto__") then categories
      else if inherited k then <[k := JsFunctionText k 1]> categories
      else <[k := JsNumber (0 + 1)]> categories
  end.

(** ** Data model (src/decorators/component.ts) *)

Inductive PropertyType :=
  | TString | TNumber | TBoolean | TVector2 | TVector3 | TColor | TRange | TEnum.

Module PropertyMetadata.
Record t := mk {
  displayName : option string;
  description : option string;
  type : PropertyType;
  readonly : option bool;
  min : option Q;
  max : option Q;
  step : option Q;
  options : option (list string);
  category : option string;
  order : option Z
}.
End PropertyMetadata.

Module ComponentMetadata.
Record t := mk {
  displayName : string;
  description : option string;
  icon : option string;
  category : option string;
  removable : option bool;
  addable : option bool;
  order : option Z
}.
End ComponentMetadata.

(** A [Map<string, PropertyMetadata>] object and the location of one. *)
Abbreviation PropertyMap := (list (string * PropertyMetadata.t)).
Abbreviation loc := positive.

(** [ComponentRegistration] (src/plugins/EditorComponentPlugin.ts). *)
Module ComponentRegistration.
Record t := mk {
  componentType : ComponentType;
  metadata : ComponentMetadata.t;
  properties : loc
}.
End ComponentRegistration.

(** The module-level state of the package: the two weak maps and the set of
    component.ts, the heap of property-map objects, and the [registrations]
    field of the singleton [EditorComponentRegistry]. *)
Record State := mkState {
  componentMetadataMap : gmap ComponentType ComponentMetadata.t;
  propertyMetadataMap : gmap ComponentType loc;
  globalComponentRegistry : list ComponentType;
  heap : gmap loc PropertyMap;
  registrations : list (ComponentType * ComponentRegistration.t)
}.

Definition initial : State := mkState ∅ ∅ [] ∅ [].

(** [new Map()]: a fresh location holding the empty map. *)
Definition new_Map (s : State) : loc * State :=
  let l := fresh (dom (heap s)) in
  (l, mkState (componentMetadataMap s) (propertyMetadataMap s)
        (globalComponentRegistry s) (<[l := []]> (heap s)) (registrations s)).

(** The entries of the map object at a location. *)
Definition deref (s : State) (l : loc) : PropertyMap :=
  default [] (heap s !! l).

(** Field updates of the state. *)
Definition with_componentMetadataMap (m : gmap ComponentType ComponentMetadata.t)
    (s : State) : State :=
  mkState m (propertyMetadataMap s) (globalComponentRegistry s) (heap s)
    (registrations s).

Definition with_propertyMetadataMap (m : gmap ComponentType loc)
    (s : State) : State :=
  mkState (componentMetadataMap s) m (globalComponentRegistry s) (heap s)
    (registrations s).

Definition with_globalComponentRegistry (g : list ComponentType)
    (s : State) : State :=
  mkState (componentMetadataMap s) (propertyMetadataMap s) g (heap s)
    (registrations s).

Definition with_heap (h : gmap loc PropertyMap) (s : State) : State :=
  mkState (componentMetadataMap s) (propertyMetadataMap s)
    (globalComponentRegistry s) h (registrations s).

Definition with_registrations
    (r : list (ComponentType * ComponentRegistration.t)) (s : State) : State :=
  mkState (componentMetadataMap s) (propertyMetadataMap s)
    (globalComponentRegistry s) (heap s) r.

(** ** src/decorators/component.ts *)

Module Decorators.

(** [@component(options)] applied to the class [target].  The options have
    the shape of the metadata itself ([Partial<ComponentMetadata>] with a
    required [displayName]). *)
Definition componentDecorator (options : ComponentMetadata.t)
    (target : ComponentType) (s : State) : State :=
  let metadata :=
    ComponentMetadata.mk
      (ComponentMetadata.displayName options)
      (ComponentMetadata.description options)
      (ComponentMetadata.icon options)
      (ComponentMetadata.category options)
      (Some (not_false (ComponentMetadata.removable options)))
      (Some (not_false (ComponentMetadata.addable options)))
      (ComponentMetadata.order options) in
  let s1 :=
    with_componentMetadataMap (<[target := metadata]> (componentMetadataMap s)) s in
  with_globalComponentRegistry (JsSet.add target (globalComponentRegistry s1)) s1.

(** [@property(options)] on the field [propertyKey] of the class
    [componentType] (the decorator's [target.constructor]). *)
Definition property (options : PropertyMetadata.t)
    (componentType : ComponentType) (propertyKey : string) (s : State) : State :=
  let s1 :=
    match propertyMetadataMap s !! componentType with
    | Some _ => s
    | None =>
        let '(l, s0) := new_Map s in
        with_propertyMetadataMap (<[componentType := l]> (propertyMetadataMap s0)) s0
    end in
  match propertyMetadataMap s1 !! componentType with
  | Some propertyMap =>
      with_heap (alter (JsMap.set propertyKey options) propertyMap (heap s1)) s1
  | None => s1
  end.

Definition getComponentMetadata (componentType : ComponentType) (s : State)
    : option ComponentMetadata.t :=
  componentMetadataMap s !! componentType.

(** [propertyMetadataMap.get(componentType) || new Map()]: a map object is
    always truthy, so a new one is made only when none is stored. *)
Definition getAllPropertyMetadata (componentType : ComponentType) (s : State)
    : loc * State :=
  match propertyMetadataMap s !! componentType with
  | Some propertyMap => (propertyMap, s)
  | None => new_Map s
  end.

Definition getPropertyMetadata (componentType : ComponentType)
    (propertyName : string) (s : State) : option PropertyMetadata.t :=
  match propertyMetadataMap s !! componentType with
  | Some propertyMap => JsMap.get propertyName (deref s propertyMap)
  | None => None
  end.

Definition hasComponentMetadata (componentType : ComponentType) (s : State)
    : bool :=
  bool_decide (is_Some (componentMetadataMap s !! componentType)).

Definition getAllRegisteredComponentTypes (s : State) : list ComponentType :=
  globalComponentRegistry s.

Definition clearAllMetadata (s : State) : State :=
  with_globalComponentRegistry (JsSet.clear (globalComponentRegistry s)) s.

End Decorators.

(** ** src/plugins/EditorComponentPlugin.ts *)

Module EditorComponentRegistry.

Definition register (componentType : ComponentType) (s : State) : State :=
  let metadata := Decorators.getComponentMetadata componentType s in
  let '(properties, s1) := Decorators.getAllPropertyMetadata componentType s in
  match metadata with
  | Some metadata =>
      with_registrations
        (JsMap.set componentType
           (ComponentRegistration.mk componentType metadata properties)
           (registrations s1)) s1
  | None => s1
  end.

Definition get (componentType : ComponentType) (s : State)
    : option ComponentRegistration.t :=
  JsMap.get componentType (registrations s).

Definition has (componentType : ComponentType) (s : State) : bool :=
  JsMap.has componentType (registrations s).

Definition getAll (s : State) : list ComponentRegistration.t :=
  JsMap.values (registrations s).

Definition getAddable (s : State) : list ComponentRegistration.t :=
  filter
    (λ reg, not_false (ComponentMetadata.addable (ComponentRegistration.metadata reg)) = true)
    (getAll s).

(** [reg.metadata.category === category]: an absent category equals no string. *)
Definition getByCategory (category : string) (s : State)
    : list ComponentRegistration.t :=
  filter
    (λ reg, ComponentMetadata.category (ComponentRegistration.metadata reg) = Some category)
    (getAll s).

Definition clear (s : State) : State :=
  with_registrations (JsMap.clear (registrations s)) s.

Record Statistics := mkStatistics {
  totalComponents : nat;
  addableComponents : nat;
  categorizedComponents : gmap string JsValue
}.

(** One iteration of the loop of [getStatistics], on the pair
    [(categories, addableCount)]. *)
Definition getStatistics_step (acc : gmap string JsValue * nat)
    (registration : ComponentRegistration.t) : gmap string JsValue * nat :=
  let '(categories, addableCount) := acc in
  let metadata := ComponentRegistration.metadata registration in
  let addableCount :=
    if not_false (ComponentMetadata.addable metadata)
    then S addableCount else addableCount in
  let categories :=
    match ComponentMetadata.category metadata with
    | Some category =>
        if decide (category = "") then categories
        else add_one category categories
    | None => categories
    end in
  (categories, addableCount).

Definition getStatistics (s : State) : Statistics :=
  let '(categories, addableCount) :=
    foldl getStatistics_step (∅, 0) (JsMap.values (registrations s)) in
  mkStatistics (JsMap.size (registrations s)) addableCount categories.

End EditorComponentRegistry.

(** [discoverAndRegisterComponents]: one [register] per declared type. *)
Definition discoverAndRegisterComponents (s : State) : State :=
  foldl (λ s componentType, EditorComponentRegistry.register componentType s)
    s (Decorators.getAllRegisteredComponentTypes s).

(** [EditorComponentPlugin.install], for a plugin whose [getComponentTypes()]
    returns [componentTypes]. *)
Definition install (componentTypes : list ComponentType) (s : State) : State :=
  foldl (λ s componentType, EditorComponentRegistry.register componentType s)
    s componentTypes.

(** ** src/utils/ComponentUtils.ts *)

Module ComponentUtils.

(** [(a, b) => (a.order || 999) - (b.order || 999)], on the [order] that
    [ord] reads off an entry. *)
Definition compareOrder {A} (ord : A → option Z) (a b : A) : Z :=
  (number_or (ord a) 999 - number_or (ord b) 999)%Z.

Definition registration_order (registration : ComponentRegistration.t)
    : option Z :=
  ComponentMetadata.order (ComponentRegistration.metadata registration).

Definition getAvailableComponentTypes (s : State)
    : list (ComponentType * ComponentRegistration.t) :=
  JsArray.sort (compareOrder (λ a, registration_order a.2))
    (map (λ registration,
            (ComponentRegistration.componentType registration, registration))
       (EditorComponentRegistry.getAddable s)).

Definition getComponentRegistration (componentType : ComponentType) (s : State)
    : option ComponentRegistration.t :=
  EditorComponentRegistry.get componentType s.

Definition isComponentRegistered (componentType : ComponentType) (s : State)
    : bool :=
  EditorComponentRegistry.has componentType s.

(** The body of the grouping loops, on an object made by [{}]:
    [if (!grouped[category]) grouped[category] = [];
     grouped[category].push(x)].
    The array is made only when the read finds nothing, neither an own
    array nor an inherited member; the [push] then works on an own array
    and throws on an inherited member. *)
Definition group_push {A} (category : string) (x : A)
    (grouped : gmap string (list A)) : Completion (gmap string (list A)) :=
  let grouped :=
    match grouped !! category with
    | Some _ => grouped
    | None => if inherited category then grouped else <[category := []]> grouped
    end in
  match grouped !! category with
  | Some arr => Normal (<[category := arr ++ [x]]> grouped)
  | None => TypeError
  end.

Definition getComponentsByCategory (s : State)
    : Completion (gmap string (list ComponentRegistration.t)) :=
  let components := EditorComponentRegistry.getAll s in
  match
    for_of
      (λ grouped registration,
         let category :=
           string_or
             (ComponentMetadata.category
                (ComponentRegistration.metadata registration))
             "Uncategorized 未分类" in
         group_push category registration grouped)
      components ∅
  with
  | Normal grouped =>
      Normal (JsArray.sort (compareOrder registration_order) <$> grouped)
  | TypeError => TypeError
  end.

Definition getComponentIcon (componentType : ComponentType) (s : State)
    : string :=
  string_or
    (getComponentRegistration componentType s ≫= λ registration,
       ComponentMetadata.icon (ComponentRegistration.metadata registration))
    "📦".

Definition getComponentCategory (componentType : ComponentType) (s : State)
    : string :=
  string_or
    (getComponentRegistration componentType s ≫= λ registration,
       ComponentMetadata.category (ComponentRegistration.metadata registration))
    "Uncategorized 未分类".

(** [registration?.metadata.removable !== false]: for an unregistered type
    the optional chain yields [undefined], which is not [false]. *)
Definition canRemoveComponent (componentType : ComponentType) (s : State)
    : bool :=
  not_false
    (getComponentRegistration componentType s ≫= λ registration,
       ComponentMetadata.removable (ComponentRegistration.metadata registration)).

Definition canAddComponent (componentType : ComponentType) (s : State)
    : bool :=
  not_false
    (getComponentRegistration componentType s ≫= λ registration,
       ComponentMetadata.addable (ComponentRegistration.metadata registration)).

Definition getPropertyMetadata (componentType : ComponentType)
    (propertyName : string) (s : State) : option PropertyMetadata.t :=
  getComponentRegistration componentType s ≫= λ registration,
    JsMap.get propertyName (deref s (ComponentRegistration.properties registration)).

(** [registration?.properties || new Map()]. *)
Definition getAllPropertyMetadata (componentType : ComponentType) (s : State)
    : loc * State :=
  match getComponentRegistration componentType s with
  | Some registration => (ComponentRegistration.properties registration, s)
  | None => new_Map s
  end.

Definition getPropertiesByCategory (componentType : ComponentType) (s : State)
    : Completion (gmap string (list (string * PropertyMetadata.t))) * State :=
  let '(properties, s1) := getAllPropertyMetadata componentType s in
  match
    for_of
      (λ grouped '(propertyName, metadata),
         let category :=
           string_or (PropertyMetadata.category metadata) "General 通用" in
         group_push category (propertyName, metadata) grouped)
      (JsMap.entries (deref s1 properties)) ∅
  with
  | Normal grouped =>
      (Normal
         (JsArray.sort (compareOrder (λ a, PropertyMetadata.order a.2))
            <$> grouped), s1)
  | TypeError => (TypeError, s1)
  end.

(** The result of [getRegistryStatistics]: the fields of the registry's
    statistics spread into it, and the two it adds. *)
Record RegistryStatistics := mkRegistryStatistics {
  totalComponents : nat;
  addableComponents : nat;
  removableComponents : nat;
  categorizedComponents : gmap string JsValue;
  componentsByCategory : gmap string (list string)
}.

(** One iteration of the loop of [getRegistryStatistics], on the pair
    [(removableCount, componentsByCategory)]. *)
Definition getRegistryStatistics_step (acc : nat * gmap string (list string))
    (registration : ComponentRegistration.t)
    : Completion (nat * gmap string (list string)) :=
  let '(removableCount, componentsByCategory) := acc in
  let metadata := ComponentRegistration.metadata registration in
  let removableCount :=
    if not_false (ComponentMetadata.removable metadata)
    then S removableCount else removableCount in
  let category :=
    string_or (ComponentMetadata.category metadata) "Uncategorized 未分类" in
  match
    group_push category (ComponentMetadata.displayName metadata)
      componentsByCategory
  with
  | Normal componentsByCategory => Normal (removableCount, componentsByCategory)
  | TypeError => TypeError
  end.

Definition getRegistryStatistics (s : State) : Completion RegistryStatistics :=
  let stats := EditorComponentRegistry.getStatistics s in
  let components := EditorComponentRegistry.getAll s in
  match for_of getRegistryStatistics_step components (0, ∅) with
  | Normal (removableCount, componentsByCategory) =>
      Normal
        (mkRegistryStatistics
           (EditorComponentRegistry.totalComponents stats)
           (EditorComponentRegistry.addableComponents stats)
           removableCount
           (EditorComponentRegistry.categorizedComponents stats)
           componentsByCategory)
  | TypeError => TypeError
  end.

End ComponentUtils.

(** ** Reachable states

    The states the package can be in: the initial one and every state an
    exported operation leads to. *)
Inductive reachable : State → Prop :=
  | reachable_initial : reachable initial
  | reachable_component options target s :
      reachable s → reachable (Decorators.componentDecorator options target s)
  | reachable_property options componentType propertyKey s :
      reachable s →
      reachable (Decorators.property options componentType propertyKey s)
  | reachable_clearAllMetadata s :
      reachable s → reachable (Decorators.clearAllMetadata s)
  | reachable_store_query componentType s :
      reachable s →
      reachable (Decorators.getAllPropertyMetadata componentType s).2
  | reachable_register componentType s :
      reachable s → reachable (EditorComponentRegistry.register componentType s)
  | reachable_clear s :
      reachable s → reachable (EditorComponentRegistry.clear s)
  | reachable_utils_query componentType s :
      reachable s →
      reachable (ComponentUtils.getAllPropertyMetadata componentType s).2.

(** Every registration and every declared type has a descriptor, a
    registration is stored under its own type, and no type is stored twice. *)
Record registry_inv (s : State) : Prop := {
  inv_registered :
    ∀ T reg, (T, reg) ∈ registrations s → is_Some (componentMetadataMap s !! T);
  inv_declared :
    ∀ T, T ∈ globalComponentRegistry s → is_Some (componentMetadataMap s !! T);
  inv_key :
    ∀ T reg, (T, reg) ∈ registrations s → ComponentRegistration.componentType reg = T;
  inv_NoDup : NoDup (registrations s).*1
}.

(** The entries the property store holds for a type. *)
Definition declared_properties (componentType : ComponentType) (s : State)
    : list (string * PropertyMetadata.t) :=
  match propertyMetadataMap s !! componentType with
  | Some propertyMap => JsMap.entries (deref s propertyMap)
  | None => []
  end.

(** Every stored property map is allocated, and no two types share one. *)
Record heap_inv (s : State) : Prop := {
  inv_allocated :
    ∀ T l, propertyMetadataMap s !! T = Some l → is_Some (heap s !! l);
  inv_separate :
    ∀ T U l,
      propertyMetadataMap s !! T = Some l → propertyMetadataMap s !! U = Some l →
      T = U
}.

(** ** Vocabulary of the specification and scenarios *)

(** The order an entry sorts by when a missing [order] counts as 999. *)
Definition effective_order (o : option Z) : Z := default 999%Z o.

(** [output] is [input] stably sorted by effective order: it has the same
    entries, and the entries of each effective order, whatever it is, are
    in their order of [input]; among the entries whose [order] is not [0]
    it is ascending in effective order, and an explicit non-zero order
    below 999 is ahead of every missing one.  An [order] of [0] is falsy
    for [||], so where such an entry stands among the others is not
    said here. *)
Record stable_by_order {A} (ord : A → option Z) (input output : list A) : Prop := {
  sbo_same_entries : output ≡ₚ input;
  sbo_stable :
    ∀ k,
      filter (λ x, effective_order (ord x) = k) output =
      filter (λ x, effective_order (ord x) = k) input;
  sbo_ascending :
    ∀ i j a b,
      i < j → output !! i = Some a → output !! j = Some b →
      ord a ≠ Some 0%Z → ord b ≠ Some 0%Z →
      (effective_order (ord a) ≤ effective_order (ord b))%Z;
  sbo_explicit_first :
    ∀ i j a b o,
      output !! i = Some a → output !! j = Some b →
      ord a = Some o → o ≠ 0%Z → (o < 999)%Z → ord b = None →
      i < j
}.

(** Following the spec's words: every entry with an explicit order comes
    before every entry without one. *)
Definition explicit_before_missing {A} (ord : A → option Z) (output : list A)
    : Prop :=
  ∀ i j a b,
    output !! i = Some a → output !! j = Some b →
    is_Some (ord a) → ord b = None → i < j.

(** Following the spec's words: an [order]-ascending sequence. *)
Definition order_ascending {A} (ord : A → option Z) (output : list A) : Prop :=
  ∀ i j a b,
    i < j → output !! i = Some a → output !! j = Some b →
    (effective_order (ord a) ≤ effective_order (ord b))%Z.

(** The group key the component-grouping loop computes for a registration. *)
Definition registration_group (registration : ComponentRegistration.t) : string :=
  string_or
    (ComponentMetadata.category (ComponentRegistration.metadata registration))
    "Uncategorized 未分类".

(** The group key the property-grouping loop computes for a map entry. *)
Definition property_group (entry : string * PropertyMetadata.t) : string :=
  string_or (PropertyMetadata.category entry.2) "General 通用".

(** What the tally of [getStatistics] holds under a non-empty key that [n]
    registrations carry as their category: nothing when there is none,
    and nothing at all under [__proto__]; the source text of the
    inherited function followed by [n] characters [1] under the name of
    another member of [Object.prototype]; the count [n] under any other
    key. *)
Definition tally_value (category : string) (n : nat) : option JsValue :=
  if decide (category = "__proto__") then None
  else match n with
       | 0 => None
       | S _ =>
           if inherited category then Some (JsFunctionText category n)
           else Some (JsNumber n)
       end.

(** No entry of [xs] has a group key that names a member of
    [Object.prototype]. *)
Definition no_prototype_key {A} (label : A → string) (xs : list A) : Prop :=
  Forall (λ x, inherited (label x) = false) xs.

(** The entries of the property map the helpers read for a type: those of
    its registration, none for an unregistered type. *)
Definition registered_properties (componentType : ComponentType) (s : State)
    : list (string * PropertyMetadata.t) :=
  match EditorComponentRegistry.get componentType s with
  | Some registration =>
      JsMap.entries (deref s (ComponentRegistration.properties registration))
  | None => []
  end.

(** Options that leave out everything but the name, category and order;
    the decorators of the members of a class run before the one of the
    class itself. *)
Definition component_options (displayName : string) (category : option string)
    (order : option Z) : ComponentMetadata.t :=
  ComponentMetadata.mk displayName None None category None None order.

Definition property_options (type : PropertyType) (category : option string)
    (order : option Z) : PropertyMetadata.t :=
  PropertyMetadata.mk None None type None None None None None category order.

(** Health (order 2) and Mana (order 1), both in "Gameplay", registered in
    that order; Health has the property [hp] in "Stats". *)
Definition scenario_gameplay : State :=
  EditorComponentRegistry.register 2
    (EditorComponentRegistry.register 1
       (Decorators.componentDecorator
          (component_options "Mana" (Some "Gameplay") (Some 1%Z)) 2
          (Decorators.componentDecorator
             (component_options "Health" (Some "Gameplay") (Some 2%Z)) 1
             (Decorators.property
                (property_options TRange (Some "Stats") (Some 1%Z)) 1 "hp"
                initial)))).

(** A component without category that has one property without category. *)
Definition scenario_plain : State :=
  EditorComponentRegistry.register 1
    (Decorators.componentDecorator (component_options "Camera" None None) 1
       (Decorators.property (property_options TNumber None None) 1 "fov"
          initial)).

(** A component without order registered before one of order 1000. *)
Definition scenario_late : State :=
  EditorComponentRegistry.register 2
    (EditorComponentRegistry.register 1
       (Decorators.componentDecorator
          (component_options "Late" None (Some 1000%Z)) 2
          (Decorators.componentDecorator (component_options "Plain" None None) 1
             initial))).

(** Three registered components, two in "Audio" and one without category. *)
Definition scenario_audio : State :=
  EditorComponentRegistry.register 3
    (EditorComponentRegistry.register 2
       (EditorComponentRegistry.register 1
          (Decorators.componentDecorator
             (component_options "Listener" None None) 3
             (Decorators.componentDecorator
                (component_options "Source" (Some "Audio") None) 2
                (Decorators.componentDecorator
                   (component_options "Mixer" (Some "Audio") None) 1
                   initial))))).

(** The order the comparator of the helpers reads off an entry:
    [order || 999]. *)
Definition order_or_999 (o : option Z) : Z := number_or o 999.

(** [output] is [input] stably sorted by [order || 999]. *)
Record sorted_by_order_or_999 {A} (ord : A → option Z) (input output : list A)
    : Prop := {
  so9_same_entries : output ≡ₚ input;
  so9_ascending :
    ∀ i j a b,
      i < j → output !! i = Some a → output !! j = Some b →
      (order_or_999 (ord a) ≤ order_or_999 (ord b))%Z;
  so9_stable :
    ∀ k,
      filter (λ x, order_or_999 (ord x) = k) output =
      filter (λ x, order_or_999 (ord x) = k) input;
  so9_zero_last :
    ∀ i j a b o,
      output !! i = Some a → output !! j = Some b →
      ord a = Some o → o ≠ 0%Z → (o < 999)%Z → ord b = Some 0%Z →
      i < j
}.

(** A component whose declared category is the empty string. *)
Definition scenario_empty_category : State :=
  EditorComponentRegistry.register 1
    (Decorators.componentDecorator (component_options "Blank" (Some "") None) 1
       initial).

(** A declared component with a declared property that was never registered. *)
Definition scenario_unregistered : State :=
  Decorators.componentDecorator (component_options "Camera" None None) 1
    (Decorators.property (property_options TNumber None None) 1 "fov" initial).

(** Components of order 0, 5 and none, registered in that order. *)
Definition scenario_zero_order : State :=
  install [1%positive; 2%positive; 3%positive]
    (Decorators.componentDecorator (component_options "None" None None) 3
       (Decorators.componentDecorator (component_options "Five" None (Some 5%Z)) 2
          (Decorators.componentDecorator
             (component_options "Zero" None (Some 0%Z)) 1 initial))).

(** A component whose declared category is [constructor]. *)
Definition scenario_constructor : State :=
  EditorComponentRegistry.register 1
    (Decorators.componentDecorator
       (component_options "Builder" (Some "constructor") None) 1 initial).

(** A registered component with a property whose category is [toString]. *)
Definition scenario_toString : State :=
  EditorComponentRegistry.register 1
    (Decorators.componentDecorator (component_options "Label" None None) 1
       (Decorators.property (property_options TString (Some "toString") None)
          1 "text" initial)).

(** ** Facts about the containers *)

Section JsMap_facts.
Context {K V : Type} `{EqDecision K}.
Implicit Types (k : K) (v : V) (m : list (K * V)).

Lemma JsMap_get_set_eq k v m : JsMap.get k (JsMap.set k v m) = Some v.
Proof.
  induction m as [|[k' v'] m IH]; simpl.
  - by rewrite decide_True.
  - destruct (decide (k' = k)) as [->|Hne]; simpl.
    + by rewrite decide_True.
    + by rewrite decide_False.
Qed.

Lemma JsMap_get_set_ne k k' v m :
  k ≠ k' → JsMap.get k' (JsMap.set k v m) = JsMap.get k' m.
Proof.
  intros Hne. induction m as [|[k0 v0] m IH]; simpl.
  - by rewrite decide_False.
  - destruct (decide (k0 = k)) as [->|Hk]; simpl.
    + by rewrite !decide_False.
    + destruct (decide (k0 = k')); [done | apply IH].
Qed.

Lemma JsMap_elem_of_set k v m x :
  x ∈ JsMap.set k v m → x = (k, v) ∨ x ∈ m.
Proof.
  induction m as [|[k' v'] m IH]; simpl.
  - intros ->%list_elem_of_singleton. by left.
  - destruct (decide (k' = k)) as [->|Hk].
    + intros [->| Hin]%elem_of_cons; [by left | right; by right].
    + intros [->| Hin]%elem_of_cons; [right; by left |].
      destruct (IH Hin); [by left | right; by right].
Qed.

Lemma JsMap_keys_set k v m :
  (JsMap.set k v m).*1 = if decide (k ∈ m.*1) then m.*1 else m.*1 ++ [k].
Proof.
  induction m as [|[k' v'] m IH].
  - cbn. case_decide as Hin; [by apply elem_of_nil in Hin | done].
  - cbn. destruct (decide (k' = k)) as [->|Hk]; cbn.
    + rewrite decide_True; [done | by left].
    + rewrite IH. destruct (decide (k ∈ m.*1)) as [Hin|Hin].
      * rewrite decide_True; [done | by right].
      * rewrite decide_False; [done |].
        intros [?|?]%elem_of_cons; simpl in *; [congruence | done].
Qed.

Lemma JsMap_get_Some_elem_of k v m : JsMap.get k m = Some v → (k, v) ∈ m.
Proof.
  induction m as [|[k' v'] m IH]; simpl; [done |].
  destruct (decide (k' = k)) as [->|Hk].
  - intros [= ->]. by left.
  - intros Hg. right. by apply IH.
Qed.

Lemma JsMap_get_None k m : JsMap.get k m = None ↔ k ∉ m.*1.
Proof.
  induction m as [|[k' v'] m IH]; simpl.
  - split; [intros _ ?%elem_of_nil; done | done].
  - destruct (decide (k' = k)) as [->|Hk].
    + split; [done | intros Hn; destruct Hn; by left].
    + rewrite IH. split.
      * intros Hn [?|?]%elem_of_cons; simpl in *; [congruence | done].
      * intros Hn Hin. apply Hn. by right.
Qed.

Lemma JsMap_set_absent k v m :
  JsMap.get k m = None → JsMap.set k v m = m ++ [(k, v)].
Proof.
  induction m as [|[k' v'] m IH]; simpl; [done |].
  destruct (decide (k' = k)); [done |]. intros Hg. by rewrite IH.
Qed.

Lemma JsMap_get_Some_values k v m : JsMap.get k m = Some v → v ∈ JsMap.values m.
Proof.
  intros Hin%JsMap_get_Some_elem_of. unfold JsMap.values.
  apply list_elem_of_fmap. by exists (k, v).
Qed.

End JsMap_facts.

Lemma JsSet_elem_of_add {A} `{EqDecision A} (x y : A) (s : list A) :
  y ∈ JsSet.add x s ↔ y = x ∨ y ∈ s.
Proof.
  unfold JsSet.add. case_decide as Hin.
  - split; [by right | by intros [->|?]].
  - rewrite elem_of_app, list_elem_of_singleton. tauto.
Qed.

(** ** What each operation leaves alone *)

Ltac unfold_ops :=
  unfold ComponentUtils.getAllPropertyMetadata,
    ComponentUtils.getComponentRegistration in *;
  unfold EditorComponentRegistry.register, EditorComponentRegistry.clear,
    EditorComponentRegistry.get, EditorComponentRegistry.has,
    EditorComponentRegistry.getAll in *;
  unfold Decorators.componentDecorator, Decorators.property,
    Decorators.clearAllMetadata, Decorators.getAllPropertyMetadata,
    Decorators.getComponentMetadata, Decorators.hasComponentMetadata,
    Decorators.getAllRegisteredComponentTypes in *;
  unfold new_Map, with_componentMetadataMap, with_propertyMetadataMap,
    with_globalComponentRegistry, with_heap, with_registrations in *.

Lemma property_frame options componentType propertyKey s :
  let s' := Decorators.property options componentType propertyKey s in
  componentMetadataMap s' = componentMetadataMap s ∧
  globalComponentRegistry s' = globalComponentRegistry s ∧
  registrations s' = registrations s.
Proof.
  unfold_ops. destruct (propertyMetadataMap s !! componentType) eqn:E; simpl.
  - by rewrite E.
  - by rewrite lookup_insert_eq.
Qed.

Lemma store_query_frame componentType s :
  let s' := (Decorators.getAllPropertyMetadata componentType s).2 in
  componentMetadataMap s' = componentMetadataMap s ∧
  propertyMetadataMap s' = propertyMetadataMap s ∧
  globalComponentRegistry s' = globalComponentRegistry s ∧
  registrations s' = registrations s.
Proof. unfold_ops. by destruct (propertyMetadataMap s !! componentType). Qed.

Lemma utils_query_frame componentType s :
  let s' := (ComponentUtils.getAllPropertyMetadata componentType s).2 in
  componentMetadataMap s' = componentMetadataMap s ∧
  propertyMetadataMap s' = propertyMetadataMap s ∧
  globalComponentRegistry s' = globalComponentRegistry s ∧
  registrations s' = registrations s.
Proof.
  unfold_ops. by destruct (JsMap.get componentType (registrations s)).
Qed.

Lemma register_frame componentType s :
  let s' := EditorComponentRegistry.register componentType s in
  componentMetadataMap s' = componentMetadataMap s ∧
  propertyMetadataMap s' = propertyMetadataMap s ∧
  globalComponentRegistry s' = globalComponentRegistry s.
Proof.
  unfold_ops.
  by destruct (propertyMetadataMap s !! componentType),
    (componentMetadataMap s !! componentType).
Qed.

(** [register] stores a registration exactly when a descriptor exists. *)
Lemma register_registrations componentType s :
  registrations (EditorComponentRegistry.register componentType s) =
  match componentMetadataMap s !! componentType with
  | Some metadata =>
      JsMap.set componentType
        (ComponentRegistration.mk componentType metadata
           (Decorators.getAllPropertyMetadata componentType s).1)
        (registrations s)
  | None => registrations s
  end.
Proof.
  unfold_ops.
  by destruct (propertyMetadataMap s !! componentType),
    (componentMetadataMap s !! componentType).
Qed.

Lemma reachable_inv s : reachable s → registry_inv s.
Proof.
  induction 1 as [|options target s _ IH|options T key s _ IH|s _ IH
                 |T s _ IH|T s _ IH|s _ IH|T s _ IH].
  - split; simpl; try (intros; exfalso; by eapply elem_of_nil). constructor.
  - destruct IH as [I1 I2 I3 I4]. split; simpl; [| |done|done].
    + intros T reg Hin. apply lookup_insert_is_Some'. right. by eapply I1.
    + intros T [->|Hin]%JsSet_elem_of_add; apply lookup_insert_is_Some'.
      * by left.
      * right. by apply I2.
  - destruct IH as [I1 I2 I3 I4].
    destruct (property_frame options T key s) as (E1 & E2 & E3).
    split; rewrite ?E1, ?E2, ?E3; done.
  - destruct IH as [I1 I2 I3 I4]. split; simpl; [done| |done|done].
    intros T Hin. by apply elem_of_nil in Hin.
  - destruct IH as [I1 I2 I3 I4].
    destruct (store_query_frame T s) as (E1 & E2 & E3 & E4).
    split; rewrite ?E1, ?E3, ?E4; done.
  - destruct IH as [I1 I2 I3 I4].
    destruct (register_frame T s) as (E1 & E2 & E3).
    pose proof (register_registrations T s) as E4.
    split; rewrite ?E1, ?E3, ?E4.
    + intros U reg. destruct (componentMetadataMap s !! T) eqn:E; [|apply I1].
      intros [[= -> ->]|Hin]%JsMap_elem_of_set; [by rewrite E | by eapply I1].
    + done.
    + intros U reg. destruct (componentMetadataMap s !! T) eqn:E; [|apply I3].
      intros [[= -> ->]|Hin]%JsMap_elem_of_set; [done | by eapply I3].
    + destruct (componentMetadataMap s !! T) eqn:E; [|done].
      rewrite JsMap_keys_set. case_decide as Hin; [done |].
      apply NoDup_app. split_and!; [done | | apply NoDup_singleton].
      by intros x Hx ->%list_elem_of_singleton.
  - destruct IH as [I1 I2 I3 I4]. split; simpl; [|done| |constructor].
    + intros T reg Hin. by apply elem_of_nil in Hin.
    + intros T reg Hin. by apply elem_of_nil in Hin.
  - destruct IH as [I1 I2 I3 I4].
    destruct (utils_query_frame T s) as (E1 & E2 & E3 & E4).
    split; rewrite ?E1, ?E3, ?E4; done.
Qed.

(** In a reachable state a type without a descriptor is not registered. *)
Lemma reachable_has_false s T :
  reachable s →
  Decorators.getComponentMetadata T s = None →
  EditorComponentRegistry.has T s = false.
Proof.
  intros [I1 _ _ _]%reachable_inv Hmd.
  unfold EditorComponentRegistry.has, JsMap.has.
  destruct (JsMap.get T (registrations s)) as [reg|] eqn:E; [|done].
  apply JsMap_get_Some_elem_of, I1 in E.
  unfold Decorators.getComponentMetadata in Hmd. rewrite Hmd in E.
  by destruct E.
Qed.

Lemma JsMap_elem_of_get {K V} `{EqDecision K} (k : K) (v : V) (m : list (K * V)) :
  NoDup m.*1 → (k, v) ∈ m → JsMap.get k m = Some v.
Proof.
  induction m as [|[k' v'] m IH]; simpl.
  - by intros _ ?%elem_of_nil.
  - intros [Hk' Hnd]%NoDup_cons [[= -> ->]|Hin]%elem_of_cons.
    + by rewrite decide_True.
    + rewrite decide_False; [by apply IH |].
      intros ->. apply Hk'. apply list_elem_of_fmap. by exists (k, v).
Qed.

(** A stored registration is the one [get] returns for its type. *)
Lemma getAll_get s reg :
  reachable s →
  reg ∈ EditorComponentRegistry.getAll s →
  EditorComponentRegistry.get (ComponentRegistration.componentType reg) s = Some reg.
Proof.
  intros [_ _ I3 I4]%reachable_inv.
  unfold EditorComponentRegistry.getAll, JsMap.values.
  intros ([k reg'] & -> & Hin)%list_elem_of_fmap. simpl.
  rewrite (I3 _ _ Hin). by apply JsMap_elem_of_get.
Qed.

(** What [get] returns after a type is declared and then registered. *)
Lemma get_declared_registered options T s :
  let s1 := EditorComponentRegistry.register T
              (Decorators.componentDecorator options T s) in
  ∃ reg, EditorComponentRegistry.get T s1 = Some reg ∧
    reg ∈ EditorComponentRegistry.getAll s1 ∧
    ComponentMetadata.removable (ComponentRegistration.metadata reg) =
      Some (not_false (ComponentMetadata.removable options)) ∧
    ComponentMetadata.addable (ComponentRegistration.metadata reg) =
      Some (not_false (ComponentMetadata.addable options)).
Proof.
  intros s1. unfold EditorComponentRegistry.get.
  assert (∃ reg, JsMap.get T (registrations s1) = Some reg ∧
    ComponentMetadata.removable (ComponentRegistration.metadata reg) =
      Some (not_false (ComponentMetadata.removable options)) ∧
    ComponentMetadata.addable (ComponentRegistration.metadata reg) =
      Some (not_false (ComponentMetadata.addable options)))
    as (reg & Hget & ? & ?).
  { subst s1. rewrite register_registrations. simpl.
    rewrite lookup_insert_eq. eexists. by rewrite JsMap_get_set_eq. }
  exists reg. split_and!; [done | | done | done].
  by eapply JsMap_get_Some_values.
Qed.

(** ** The registry: [register], [get], [has] *)

(** C1.  When the metadata store holds no descriptor for [T],
    [register T] creates no registration: the stored registrations, what
    [getAll] and [get] return, the two metadata maps, the declared-types
    set and every existing property-map object are as before, [has T] is
    unchanged, and in a reachable state [has T] is false afterwards. *)
Theorem register_without_metadata_is_noop (s : State) (T : ComponentType) :
  Decorators.getComponentMetadata T s = None →
  let s' := EditorComponentRegistry.register T s in
  registrations s' = registrations s ∧
  EditorComponentRegistry.getAll s' = EditorComponentRegistry.getAll s ∧
  (∀ U, EditorComponentRegistry.get U s' = EditorComponentRegistry.get U s) ∧
  componentMetadataMap s' = componentMetadataMap s ∧
  propertyMetadataMap s' = propertyMetadataMap s ∧
  globalComponentRegistry s' = globalComponentRegistry s ∧
  (∀ l, is_Some (heap s !! l) → heap s' !! l = heap s !! l) ∧
  EditorComponentRegistry.has T s' = EditorComponentRegistry.has T s ∧
  (reachable s → EditorComponentRegistry.has T s' = false).
Proof.
  intros Hmd s'.
  assert (registrations s' = registrations s) as Hreg.
  { subst s'. rewrite register_registrations.
    unfold Decorators.getComponentMetadata in Hmd. by rewrite Hmd. }
  destruct (register_frame T s) as (E1 & E2 & E3).
  unfold EditorComponentRegistry.getAll, EditorComponentRegistry.get,
    EditorComponentRegistry.has.
  rewrite Hreg. split_and!; try done.
  - intros l [m Hl]. subst s'. unfold_ops. rewrite Hmd.
    destruct (propertyMetadataMap s !! T); simpl; [done |].
    apply lookup_insert_ne. intros <-.
    pose proof (is_fresh (dom (heap s))) as Hfresh.
    apply Hfresh, elem_of_dom. by exists m.
  - intros Hr. by apply reachable_has_false.
Qed.

Lemma register_without_metadata_is_noop_witness :
  Decorators.getComponentMetadata 1 initial = None ∧
  EditorComponentRegistry.has 1 (EditorComponentRegistry.register 1 initial) = false.
Proof.
  split; [reflexivity |].
  apply (register_without_metadata_is_noop initial 1); [reflexivity | constructor].
Defined.

(** C2.  When the metadata store holds the descriptor [md] for [T], then
    after [register T] the call [get T] returns a registration whose
    component type is [T], whose metadata is [md], and whose property map
    has exactly the entries of the map the property store holds for [T]
    (no entries when it holds none), so that every property name looks up
    the same in both. *)
Theorem register_with_metadata (s : State) (T : ComponentType)
    (md : ComponentMetadata.t) :
  Decorators.getComponentMetadata T s = Some md →
  let s' := EditorComponentRegistry.register T s in
  ∃ reg,
    EditorComponentRegistry.get T s' = Some reg ∧
    ComponentRegistration.componentType reg = T ∧
    ComponentRegistration.metadata reg = md ∧
    JsMap.entries (deref s' (ComponentRegistration.properties reg)) =
      match propertyMetadataMap s !! T with
      | Some propertyMap => JsMap.entries (deref s propertyMap)
      | None => []
      end ∧
    ∀ propertyName,
      JsMap.get propertyName (deref s' (ComponentRegistration.properties reg)) =
      Decorators.getPropertyMetadata T propertyName s.
Proof.
  intros Hmd s'. unfold Decorators.getComponentMetadata in Hmd.
  exists (ComponentRegistration.mk T md (Decorators.getAllPropertyMetadata T s).1).
  assert (heap s' = heap (Decorators.getAllPropertyMetadata T s).2) as Hheap.
  { subst s'. unfold_ops. rewrite Hmd.
    by destruct (propertyMetadataMap s !! T). }
  unfold EditorComponentRegistry.get, Decorators.getPropertyMetadata, deref,
    JsMap.entries.
  subst s'. rewrite register_registrations, Hmd, JsMap_get_set_eq, Hheap.
  simpl. unfold Decorators.getAllPropertyMetadata, new_Map.
  destruct (propertyMetadataMap s !! T) as [l|]; simpl; [done |].
  by rewrite lookup_insert_eq.
Qed.

Lemma register_with_metadata_witness :
  let md := ComponentMetadata.mk "Health" None None (Some "Gameplay")
              (Some true) (Some true) (Some 2%Z) in
  let s := Decorators.componentDecorator md 1 initial in
  Decorators.getComponentMetadata 1 s = Some md ∧
  ∃ reg,
    EditorComponentRegistry.get 1 (EditorComponentRegistry.register 1 s) = Some reg ∧
    ComponentRegistration.metadata reg = md.
Proof.
  intros md s. split; [reflexivity |].
  destruct (register_with_metadata s 1 md) as (reg & Hget & _ & Hmd & _);
    [reflexivity |].
  exists reg. split; assumption.
Defined.

(** ** The metadata store: [clearAllMetadata] *)

(** C9.  [clearAllMetadata] empties the enumerable declared-types set, so
    that [getAllRegisteredComponentTypes] returns the empty sequence, and
    leaves the component and property associations as they were:
    [hasComponentMetadata] and [getComponentMetadata] answer as before for
    every type, in particular a stored descriptor is still returned, and a
    type that was in the declared-types set of a reachable state still has
    its descriptor. *)
Theorem clearAllMetadata_clears_only_declared_types (s : State) :
  let s' := Decorators.clearAllMetadata s in
  Decorators.getAllRegisteredComponentTypes s' = [] ∧
  componentMetadataMap s' = componentMetadataMap s ∧
  propertyMetadataMap s' = propertyMetadataMap s ∧
  heap s' = heap s ∧
  registrations s' = registrations s ∧
  (∀ T,
     Decorators.hasComponentMetadata T s' = Decorators.hasComponentMetadata T s ∧
     Decorators.getComponentMetadata T s' = Decorators.getComponentMetadata T s ∧
     ∀ propertyName,
       Decorators.getPropertyMetadata T propertyName s' =
       Decorators.getPropertyMetadata T propertyName s) ∧
  (∀ T md,
     Decorators.getComponentMetadata T s = Some md →
     Decorators.hasComponentMetadata T s' = true ∧
     Decorators.getComponentMetadata T s' = Some md) ∧
  (∀ T,
     reachable s →
     T ∈ Decorators.getAllRegisteredComponentTypes s →
     Decorators.hasComponentMetadata T s' = true ∧
     is_Some (Decorators.getComponentMetadata T s')).
Proof.
  intros s'. split_and!; try done.
  - intros T md Hmd. unfold Decorators.hasComponentMetadata. simpl.
    unfold Decorators.getComponentMetadata in Hmd.
    by rewrite Hmd, bool_decide_eq_true.
  - intros T [_ I2 _ _]%reachable_inv Hin.
    unfold Decorators.hasComponentMetadata, Decorators.getComponentMetadata.
    simpl. split; [apply bool_decide_eq_true |]; by apply I2.
Qed.

Lemma clearAllMetadata_clears_only_declared_types_witness :
  let md := ComponentMetadata.mk "Transform" None None (Some "Core")
              (Some false) (Some true) None in
  let s := Decorators.componentDecorator md 1 initial in
  Decorators.getComponentMetadata 1 s = Some md ∧
  Decorators.getAllRegisteredComponentTypes s = [1%positive] ∧
  Decorators.getAllRegisteredComponentTypes (Decorators.clearAllMetadata s) = [] ∧
  Decorators.hasComponentMetadata 1 (Decorators.clearAllMetadata s) = true ∧
  Decorators.getComponentMetadata 1 (Decorators.clearAllMetadata s) = Some md.
Proof.
  intros md s.
  destruct (clearAllMetadata_clears_only_declared_types s)
    as (Hnil & _ & _ & _ & _ & _ & Hkeep & _).
  split_and!; [reflexivity | reflexivity | exact Hnil | |];
    apply (Hkeep 1%positive md); reflexivity.
Defined.

(** ** The registry: [getAddable] and the add/remove predicates *)

(** C6.  [getAddable] is exactly the subsequence of [getAll] whose
    [metadata.addable] is not [false]; after a type is declared by the
    component decorator and registered, its registration is left out when
    [addable: false] was declared (no registration of that type is
    returned) and is returned when [addable] was omitted or [true]. *)
Theorem getAddable_is_not_false_subsequence (s : State)
    (options : ComponentMetadata.t) (T : ComponentType) :
  EditorComponentRegistry.getAddable s =
    filter
      (λ reg, ComponentMetadata.addable (ComponentRegistration.metadata reg)
              ≠ Some false)
      (EditorComponentRegistry.getAll s) ∧
  (∀ reg,
     reg ∈ EditorComponentRegistry.getAddable s ↔
     reg ∈ EditorComponentRegistry.getAll s ∧
     ComponentMetadata.addable (ComponentRegistration.metadata reg) ≠ Some false) ∧
  EditorComponentRegistry.getAddable s `sublist_of` EditorComponentRegistry.getAll s ∧
  let s1 := EditorComponentRegistry.register T
              (Decorators.componentDecorator options T s) in
  ∃ reg,
    EditorComponentRegistry.get T s1 = Some reg ∧
    (ComponentMetadata.addable options = Some false →
       (reg ∉ EditorComponentRegistry.getAddable s1) ∧
       (reachable s →
        ∀ r, r ∈ EditorComponentRegistry.getAddable s1 →
             ComponentRegistration.componentType r ≠ T)) ∧
    (ComponentMetadata.addable options ≠ Some false →
       reg ∈ EditorComponentRegistry.getAddable s1).
Proof.
  assert (∀ s,
    EditorComponentRegistry.getAddable s =
    filter
      (λ reg, ComponentMetadata.addable (ComponentRegistration.metadata reg)
              ≠ Some false)
      (EditorComponentRegistry.getAll s)) as Hfilter.
  { intros s0. unfold EditorComponentRegistry.getAddable.
    apply list_filter_iff. intros reg.
    by destruct (ComponentMetadata.addable (ComponentRegistration.metadata reg))
      as [[]|]. }
  split_and!.
  - apply Hfilter.
  - intros reg. rewrite Hfilter, list_elem_of_filter. tauto.
  - rewrite Hfilter. apply sublist_filter.
  - intros s1.
    destruct (get_declared_registered options T s) as (reg & Hget & Hin & _ & Hadd).
    fold s1 in Hget, Hin. exists reg. split_and!; [done | |].
    + intros Hopt. rewrite Hopt in Hadd. simpl in Hadd.
      assert (reg ∉ EditorComponentRegistry.getAddable s1) as Hnot.
      { rewrite Hfilter, list_elem_of_filter. intros [Hne _]. by apply Hne. }
      split; [done |]. intros Hr r Hr1 HT.
      assert (reachable s1) as Hr1' by (by do 2 constructor).
      assert (r ∈ EditorComponentRegistry.getAll s1) as Hall.
      { rewrite Hfilter, list_elem_of_filter in Hr1. tauto. }
      apply (getAll_get _ _ Hr1') in Hall. rewrite HT, Hget in Hall.
      by injection Hall as ->.
    + intros Hopt. rewrite Hfilter, list_elem_of_filter. split; [|done].
      rewrite Hadd.
      by destruct (ComponentMetadata.addable options) as [[]|].
Qed.

Lemma getAddable_is_not_false_subsequence_witness :
  let hidden := ComponentMetadata.mk "Hidden" None None None None (Some false) None in
  let shown := ComponentMetadata.mk "Shown" None None None None None None in
  let s := EditorComponentRegistry.register 1
             (Decorators.componentDecorator shown 1 initial) in
  let s1 := EditorComponentRegistry.register 2
              (Decorators.componentDecorator hidden 2 s) in
  ComponentMetadata.addable hidden = Some false ∧
  reachable s ∧
  ∀ r, r ∈ EditorComponentRegistry.getAddable s1 →
       ComponentRegistration.componentType r ≠ 2%positive.
Proof.
  intros hidden shown s s1.
  assert (reachable s) as Hr by (do 2 constructor; constructor).
  split_and!; [reflexivity | exact Hr |].
  destruct (getAddable_is_not_false_subsequence s hidden 2)
    as (_ & _ & _ & reg & _ & Hout & _).
  destruct (Hout eq_refl) as [_ Hnone]. exact (Hnone Hr).
Defined.

(** C7.  [canRemoveComponent] and [canAddComponent] return true for an
    unregistered type and for a registered type whose flag is not [false];
    each returns false exactly when the type is registered with the flag
    equal to [false], and, for a type declared by the component decorator
    and then registered, exactly when [removable: false] (respectively
    [addable: false]) was declared. *)
Theorem canRemove_canAdd_default_true (s : State) (T : ComponentType)
    (options : ComponentMetadata.t) :
  (EditorComponentRegistry.get T s = None →
     ComponentUtils.canRemoveComponent T s = true ∧
     ComponentUtils.canAddComponent T s = true) ∧
  (∀ reg,
     EditorComponentRegistry.get T s = Some reg →
     (ComponentMetadata.removable (ComponentRegistration.metadata reg) ≠ Some false →
        ComponentUtils.canRemoveComponent T s = true) ∧
     (ComponentMetadata.addable (ComponentRegistration.metadata reg) ≠ Some false →
        ComponentUtils.canAddComponent T s = true)) ∧
  (ComponentUtils.canRemoveComponent T s = false ↔
     ∃ reg, EditorComponentRegistry.get T s = Some reg ∧
       ComponentMetadata.removable (ComponentRegistration.metadata reg) = Some false) ∧
  (ComponentUtils.canAddComponent T s = false ↔
     ∃ reg, EditorComponentRegistry.get T s = Some reg ∧
       ComponentMetadata.addable (ComponentRegistration.metadata reg) = Some false) ∧
  let s1 := EditorComponentRegistry.register T
              (Decorators.componentDecorator options T s) in
  (ComponentUtils.canRemoveComponent T s1 = false ↔
     ComponentMetadata.removable options = Some false) ∧
  (ComponentUtils.canAddComponent T s1 = false ↔
     ComponentMetadata.addable options = Some false).
Proof.
  unfold ComponentUtils.canRemoveComponent, ComponentUtils.canAddComponent,
    ComponentUtils.getComponentRegistration.
  split_and!.
  - by intros ->.
  - intros reg ->. simpl.
    split; intros Hne;
      [destruct (ComponentMetadata.removable _) as [[]|]
      |destruct (ComponentMetadata.addable _) as [[]|]]; done.
  - destruct (EditorComponentRegistry.get T s) as [reg|]; simpl.
    + destruct (ComponentMetadata.removable _) as [[]|] eqn:E; simpl;
        split; try done; try (intros (r & [= <-] & Hr); congruence).
      intros _. by exists reg.
    + split; [done | by intros (r & ? & _)].
  - destruct (EditorComponentRegistry.get T s) as [reg|]; simpl.
    + destruct (ComponentMetadata.addable _) as [[]|] eqn:E; simpl;
        split; try done; try (intros (r & [= <-] & Hr); congruence).
      intros _. by exists reg.
    + split; [done | by intros (r & ? & _)].
  - destruct (get_declared_registered options T s) as (reg & Hget & _ & Hrem & _).
    simpl in Hget. rewrite Hget. simpl. rewrite Hrem. simpl.
    by destruct (ComponentMetadata.removable options) as [[]|].
  - destruct (get_declared_registered options T s) as (reg & Hget & _ & _ & Hadd).
    simpl in Hget. rewrite Hget. simpl. rewrite Hadd. simpl.
    by destruct (ComponentMetadata.addable options) as [[]|].
Qed.

Lemma canRemove_canAdd_default_true_witness :
  let pinned := ComponentMetadata.mk "Transform" None None (Some "Core")
                  (Some false) None None in
  let s := EditorComponentRegistry.register 1
             (Decorators.componentDecorator pinned 1 initial) in
  (EditorComponentRegistry.get 2 s = None ∧
   ComponentUtils.canRemoveComponent 2 s = true ∧
   ComponentUtils.canAddComponent 2 s = true) ∧
  ComponentUtils.canRemoveComponent 1 s = false ∧
  ComponentUtils.canAddComponent 1 s = true.
Proof.
  intros pinned s.
  destruct (canRemove_canAdd_default_true s 2 pinned) as (Hnone & _).
  destruct (canRemove_canAdd_default_true initial 1 pinned)
    as (_ & _ & _ & _ & Hrem & Hadd).
  split_and!.
  - reflexivity.
  - apply Hnone. reflexivity.
  - apply Hnone. reflexivity.
  - apply Hrem. reflexivity.
  - apply not_false_iff_true. intros Hf. apply Hadd in Hf. discriminate Hf.
Defined.

(** ** The registry: [getStatistics] *)

Lemma lookup_add_one (k c : string) (categories : gmap string JsValue) :
  k ≠ c → add_one k categories !! c = categories !! c.
Proof.
  intros Hne. unfold add_one.
  destruct (categories !! k) as [[n|name ones]|];
    rewrite ?lookup_insert_ne by done; try done.
  destruct (decide (k = "__proto__")); [done |].
  destruct (inherited k); by rewrite lookup_insert_ne.
Qed.

Lemma add_one_tally_value (c : string) (n : nat) (categories : gmap string JsValue) :
  categories !! c = tally_value c n →
  add_one c categories !! c = tally_value c (S n).
Proof.
  intros H. unfold add_one. rewrite H. unfold tally_value in *.
  destruct (decide (c = "__proto__")) as [->|Hproto]; [done |].
  destruct n as [|n]; simpl.
  - destruct (inherited c); by rewrite lookup_insert_eq.
  - destruct (inherited c); rewrite lookup_insert_eq; do 2 f_equal; lia.
Qed.

Section getStatistics_facts.
Import EditorComponentRegistry.
Implicit Types (regs : list ComponentRegistration.t)
  (categories : gmap string JsValue) (n : nat).

Lemma getStatistics_fold_addable regs categories n :
  (foldl getStatistics_step (categories, n) regs).2 =
  n + length
        (filter
           (λ reg, ComponentMetadata.addable (ComponentRegistration.metadata reg)
                   ≠ Some false) regs).
Proof.
  revert categories n.
  induction regs as [|reg regs IH]; intros categories n; simpl; [lia |].
  rewrite filter_cons.
  destruct (ComponentMetadata.category (ComponentRegistration.metadata reg)) as [c|];
    [destruct (decide (c = ""))|];
    (destruct (ComponentMetadata.addable (ComponentRegistration.metadata reg))
       as [[]|] eqn:E; simpl; rewrite IH; simpl; lia).
Qed.

Lemma getStatistics_fold_category regs categories n m c :
  c ≠ "" →
  categories !! c = tally_value c m →
  (foldl getStatistics_step (categories, n) regs).1 !! c =
  tally_value c
    (m + length
           (filter
              (λ reg, ComponentMetadata.category (ComponentRegistration.metadata reg)
                      = Some c) regs)).
Proof.
  intros Hc. revert categories n m.
  induction regs as [|reg regs IH]; intros categories n m Hm; simpl.
  { by rewrite Nat.add_0_r. }
  rewrite filter_cons.
  set (n' := if not_false _ then S n else n). clearbody n'.
  destruct (ComponentMetadata.category (ComponentRegistration.metadata reg))
    as [c'|] eqn:E.
  - destruct (decide (c' = "")) as [->|Hne].
    + rewrite (IH _ _ m) by done.
      destruct (decide (Some "" = Some c)) as [[= <-]|Hn]; done.
    + destruct (decide (Some c' = Some c)) as [[= ->]|Hn].
      * rewrite (IH _ _ (S m)) by (by apply add_one_tally_value).
        simpl. f_equal. lia.
      * rewrite (IH _ _ m); [done |].
        rewrite lookup_add_one; [done | congruence].
  - rewrite (IH _ _ m) by done. by destruct (decide (None = Some c)).
Qed.

Lemma getStatistics_fold_empty_key regs categories n :
  (foldl getStatistics_step (categories, n) regs).1 !! "" = categories !! "".
Proof.
  revert categories n.
  induction regs as [|reg regs IH]; intros categories n; simpl; [done |].
  set (n' := if not_false _ then S n else n). clearbody n'.
  destruct (ComponentMetadata.category (ComponentRegistration.metadata reg))
    as [c'|]; [|apply IH].
  destruct (decide (c' = "")) as [->|Hne]; [apply IH |].
  rewrite IH. by apply lookup_add_one.
Qed.

End getStatistics_facts.

Lemma getStatistics_unfold s :
  EditorComponentRegistry.getStatistics s =
  let acc :=
    foldl EditorComponentRegistry.getStatistics_step (∅, 0)
      (JsMap.values (registrations s)) in
  EditorComponentRegistry.mkStatistics (JsMap.size (registrations s)) acc.2 acc.1.
Proof.
  unfold EditorComponentRegistry.getStatistics.
  by destruct (foldl _ _ _).
Qed.

Lemma getAddable_filter s :
  EditorComponentRegistry.getAddable s =
  filter
    (λ reg, ComponentMetadata.addable (ComponentRegistration.metadata reg)
            ≠ Some false)
    (EditorComponentRegistry.getAll s).
Proof.
  unfold EditorComponentRegistry.getAddable.
  apply list_filter_iff. intros reg.
  by destruct (ComponentMetadata.addable (ComponentRegistration.metadata reg))
    as [[]|].
Qed.

(** What the tally of [getStatistics] holds for every key. *)
Lemma getStatistics_tally (s : State) (category : string) :
  EditorComponentRegistry.categorizedComponents
    (EditorComponentRegistry.getStatistics s) !! category =
  if decide (category = "") then None
  else tally_value category
         (length (EditorComponentRegistry.getByCategory category s)).
Proof.
  rewrite getStatistics_unfold. simpl.
  unfold EditorComponentRegistry.getByCategory, EditorComponentRegistry.getAll.
  case_decide as Hc.
  - subst category. by rewrite getStatistics_fold_empty_key, lookup_empty.
  - rewrite (getStatistics_fold_category _ _ _ 0 category Hc); [done |].
    rewrite lookup_empty. unfold tally_value. by case_decide.
Qed.

(** C8, at an input where the code departs from it.  With one registered
    component, of category [constructor], [getStatistics] reports
    [totalComponents] as 1 and [getByCategory] lists one registration of
    that category, but [categorizedComponents], declared a
    [Record<string, number>], holds under that key not the count [1] but a
    string: the source text of the inherited function followed by [1]. *)
Theorem getStatistics_miscounts_inherited_name :
  let stats := EditorComponentRegistry.getStatistics scenario_constructor in
  EditorComponentRegistry.totalComponents stats = 1 ∧
  length (EditorComponentRegistry.getByCategory "constructor" scenario_constructor)
    = 1 ∧
  EditorComponentRegistry.categorizedComponents stats !! "constructor"
    = Some (JsFunctionText "constructor" 1) ∧
  EditorComponentRegistry.categorizedComponents stats !! "constructor"
    ≠ Some (JsNumber 1).
Proof.
  intros stats. subst stats. rewrite getStatistics_tally.
  split_and!; [reflexivity | reflexivity | reflexivity | discriminate].
Qed.

(** C10.  The counts of [getStatistics] agree with the queries:
    [totalComponents] is the length of [getAll] and [addableComponents] is
    the length of [getAddable]. *)
Theorem getStatistics_agrees_with_queries (s : State) :
  EditorComponentRegistry.totalComponents (EditorComponentRegistry.getStatistics s)
    = length (EditorComponentRegistry.getAll s) ∧
  EditorComponentRegistry.addableComponents (EditorComponentRegistry.getStatistics s)
    = length (EditorComponentRegistry.getAddable s).
Proof.
  rewrite getStatistics_unfold, getAddable_filter. simpl. split.
  - unfold EditorComponentRegistry.getAll, JsMap.size, JsMap.values.
    by rewrite length_fmap.
  - by rewrite getStatistics_fold_addable.
Qed.

(** ** Sorting by [order] *)

Section sort_facts.
Context {A : Type} (ord : A → option Z).

Local Abbreviation key := (λ x : A, number_or (ord x) 999).
Local Abbreviation cmp := (ComponentUtils.compareOrder ord).
Local Abbreviation key_le := (λ x y : A, (key x ≤ key y)%Z).

Lemma insert_Permutation x l : JsArray.insert cmp x l ≡ₚ x :: l.
Proof.
  induction l as [|y l IH]; simpl; [done |].
  destruct (cmp x y <=? 0)%Z; [done |].
  rewrite IH. apply perm_swap.
Qed.

Lemma sort_Permutation l : JsArray.sort cmp l ≡ₚ l.
Proof.
  induction l as [|x l IH]; simpl; [done |].
  by rewrite insert_Permutation, IH.
Qed.

Lemma insert_StronglySorted x l :
  StronglySorted key_le l → StronglySorted key_le (JsArray.insert cmp x l).
Proof.
  induction l as [|y l IH]; simpl; intros Hs.
  - repeat constructor.
  - apply StronglySorted_cons in Hs as [Hy Hs].
    destruct (cmp x y <=? 0)%Z eqn:E;
      [apply Z.leb_le in E | apply Z.leb_gt in E];
      unfold ComponentUtils.compareOrder in E.
    + apply StronglySorted_cons. split.
      * constructor; [lia |].
        eapply Forall_impl; [exact Hy |]. simpl. intros z Hz. lia.
      * apply StronglySorted_cons. by split.
    + apply StronglySorted_cons. split; [|by apply IH].
      rewrite insert_Permutation. constructor; [lia | done].
Qed.

Lemma sort_StronglySorted l : StronglySorted key_le (JsArray.sort cmp l).
Proof.
  induction l as [|x l IH]; simpl; [constructor |].
  by apply insert_StronglySorted.
Qed.

Lemma insert_filter_key k x l :
  filter (λ y, key y = k) (JsArray.insert cmp x l) =
  filter (λ y, key y = k) (x :: l).
Proof.
  induction l as [|y l IH]; simpl; [done |].
  destruct (cmp x y <=? 0)%Z eqn:E; [done |].
  apply Z.leb_gt in E. unfold ComponentUtils.compareOrder in E.
  rewrite (filter_cons _ y), IH, !(filter_cons _ x), (filter_cons _ y).
  destruct (decide (key x = k)) as [Hx|Hx]; [|done].
  destruct (decide (key y = k)) as [Hy|Hy]; [lia | done].
Qed.

(** Stability: the entries of one key keep their order. *)
Lemma sort_filter_key k l :
  filter (λ y, key y = k) (JsArray.sort cmp l) = filter (λ y, key y = k) l.
Proof.
  induction l as [|x l IH]; simpl; [done |].
  by rewrite insert_filter_key, !filter_cons, IH.
Qed.

Lemma StronglySorted_lookup_lt (R : relation A) l i j a b :
  StronglySorted R l → i < j → l !! i = Some a → l !! j = Some b → R a b.
Proof.
  intros Hs. revert i j. induction Hs as [|x l Hs IH Hx]; intros i j Hij Hi Hj.
  - by rewrite lookup_nil in Hi.
  - destruct j as [|j]; [lia |]. simpl in Hj.
    destruct i as [|i]; simpl in Hi.
    + injection Hi as ->. rewrite Forall_forall in Hx. apply Hx.
      by eapply list_elem_of_lookup_2.
    + apply (IH i j); [lia | done | done].
Qed.

Lemma effective_order_key x :
  ord x ≠ Some 0%Z → effective_order (ord x) = key x.
Proof.
  unfold effective_order, number_or.
  destruct (ord x) as [n|]; simpl; [|done].
  intros Hn. rewrite decide_False; [done | congruence].
Qed.

(** Entries of one effective order sort by one key. *)
Lemma effective_order_class k x :
  effective_order (ord x) = k →
  key x = (if decide (k = 0%Z) then 999%Z else k).
Proof.
  unfold effective_order, number_or.
  destruct (ord x) as [n|]; simpl; intros <-; [|done].
  by destruct (decide (n = 0%Z)).
Qed.

(** The sort of the helpers is a stable sort by effective order. *)
Lemma sort_stable_by_order l : stable_by_order ord l (JsArray.sort cmp l).
Proof.
  pose proof (sort_StronglySorted l) as Hs.
  split.
  - apply sort_Permutation.
  - intros k.
    assert (∀ l' : list A,
      filter (λ x, effective_order (ord x) = k) l' =
      filter (λ x, effective_order (ord x) = k)
        (filter (λ x, key x = (if decide (k = 0%Z) then 999%Z else k)) l'))
      as Hsplit.
    { intros l'. rewrite list_filter_filter. apply list_filter_iff.
      intros x. split; [|tauto]. intros Hk. split; [done |].
      by apply effective_order_class. }
    by rewrite (Hsplit l), (Hsplit (JsArray.sort cmp l)), sort_filter_key.
  - intros i j a b Hij Hi Hj Ha Hb.
    rewrite !effective_order_key by done.
    by apply (StronglySorted_lookup_lt _ _ i j a b Hs).
  - intros i j a b o Hi Hj Ha Ho H999 Hb.
    destruct (Nat.lt_trichotomy i j) as [?|[->|Hji]]; [done | |].
    + rewrite Hi in Hj. injection Hj as ->. congruence.
    + pose proof (StronglySorted_lookup_lt _ _ j i b a Hs Hji Hj Hi) as Hle.
      simpl in Hle. rewrite Ha, Hb in Hle. simpl in Hle.
      rewrite decide_False in Hle by done. lia.
Qed.

End sort_facts.

(** ** Grouping by category *)

Lemma inherited_default_labels :
  inherited "Uncategorized 未分类" = false ∧ inherited "General 通用" = false.
Proof. split; reflexivity. Qed.

Lemma group_push_plain {A} (c : string) (x : A) (grouped : gmap string (list A)) :
  inherited c = false →
  ComponentUtils.group_push c x grouped =
  Normal (<[c := default [] (grouped !! c) ++ [x]]> grouped).
Proof.
  intros Hc. unfold ComponentUtils.group_push. rewrite Hc.
  destruct (grouped !! c) as [arr|] eqn:E.
  - by rewrite E.
  - by rewrite lookup_insert_eq, insert_insert_eq.
Qed.

Lemma group_push_inherited {A} (c : string) (x : A) (grouped : gmap string (list A)) :
  inherited c = true → grouped !! c = None →
  ComponentUtils.group_push c x grouped = TypeError.
Proof.
  intros Hc Hnone. unfold ComponentUtils.group_push. by rewrite Hnone, Hc, Hnone.
Qed.

Section group_facts.
Context {A B : Type} (label : A → string) (item : A → B).
Context (step : gmap string (list B) → A → Completion (gmap string (list B))).
Context (Hstep : ∀ grouped x,
           step grouped x = ComponentUtils.group_push (label x) (item x) grouped).

(** Without a key that names an inherited member the loop returns, and
    each group lists the items of its key in the order of the input. *)
Lemma for_of_group_plain xs (grouped : gmap string (list B)) :
  no_prototype_key label xs →
  ∃ grouped',
    for_of step xs grouped = Normal grouped' ∧
    ∀ c,
      grouped' !! c =
      match filter (λ x, label x = c) xs with
      | [] => grouped !! c
      | x :: m => Some (default [] (grouped !! c) ++ map item (x :: m))
      end.
Proof.
  revert grouped. induction xs as [|x xs IH]; intros grouped Hplain.
  - by exists grouped.
  - apply Forall_cons in Hplain as [Hx Hplain]. simpl.
    rewrite Hstep, group_push_plain by done.
    destruct (IH (<[label x := default [] (grouped !! label x) ++ [item x]]> grouped)
                Hplain) as (grouped' & -> & Hlookup).
    exists grouped'. split; [done |]. intros c. rewrite Hlookup, filter_cons.
    destruct (decide (label x = c)) as [Hc|Hc].
    + rewrite Hc, lookup_insert_eq. simpl.
      destruct (filter _ xs) as [|y m]; [done |]. simpl. by rewrite <-app_assoc.
    + by rewrite lookup_insert_ne.
Qed.

(** With such a key the loop throws. *)
Lemma for_of_group_throws xs (grouped : gmap string (list B)) :
  (∀ k, inherited k = true → grouped !! k = None) →
  Exists (λ x, inherited (label x) = true) xs →
  for_of step xs grouped = TypeError.
Proof.
  revert grouped. induction xs as [|x xs IH]; intros grouped Hown Hex.
  - by apply Exists_nil in Hex.
  - simpl. rewrite Hstep.
    destruct (inherited (label x)) eqn:Hx.
    + by rewrite group_push_inherited by auto.
    + rewrite group_push_plain by done.
      apply Exists_cons in Hex as [Hex|Hex]; [congruence |].
      apply IH; [|done]. intros k Hk. rewrite lookup_insert_ne; [by apply Hown |].
      intros <-. congruence.
Qed.

Lemma for_of_group_Normal xs grouped' :
  for_of step xs ∅ = Normal grouped' →
  no_prototype_key label xs ∧
  ∀ c,
    grouped' !! c =
    match filter (λ x, label x = c) xs with
    | [] => None
    | x :: m => Some (map item (x :: m))
    end.
Proof.
  intros Hret.
  destruct (decide (no_prototype_key label xs)) as [Hplain|Hex].
  - split; [done |].
    destruct (for_of_group_plain xs ∅ Hplain) as (g & Hg & Hlookup).
    rewrite Hg in Hret. injection Hret as <-. intros c.
    rewrite Hlookup, lookup_empty. by destruct (filter _ xs).
  - apply not_Forall_Exists in Hex; [|apply _].
    rewrite for_of_group_throws in Hret; [done | by intros; apply lookup_empty |].
    eapply Exists_impl; [exact Hex |]. simpl. intros x Hx.
    by destruct (inherited (label x)).
Qed.

End group_facts.

(** [getComponentsByCategory] throws exactly when a group key names an
    inherited member. *)
Lemma getComponentsByCategory_throws s :
  Exists (λ reg, inherited (registration_group reg) = true)
    (EditorComponentRegistry.getAll s) →
  ComponentUtils.getComponentsByCategory s = TypeError.
Proof.
  intros Hex. unfold ComponentUtils.getComponentsByCategory.
  by rewrite (for_of_group_throws registration_group id).
Qed.

Lemma getComponentsByCategory_lookup s grouped :
  ComponentUtils.getComponentsByCategory s = Normal grouped →
  ∀ category,
  grouped !! category =
  match filter (λ reg, registration_group reg = category)
          (EditorComponentRegistry.getAll s) with
  | [] => None
  | reg :: group =>
      Some (JsArray.sort (ComponentUtils.compareOrder ComponentUtils.registration_order)
              (reg :: group))
  end.
Proof.
  unfold ComponentUtils.getComponentsByCategory.
  destruct (for_of _ _ _) as [g|] eqn:E; [|done]. intros [= <-] category.
  apply (for_of_group_Normal registration_group id) in E as [_ Hlookup]; [|done].
  rewrite lookup_fmap, Hlookup.
  destruct (filter _ _) as [|r l]; [done |]. simpl. by rewrite map_id.
Qed.

Lemma getComponentsByCategory_returns s :
  no_prototype_key registration_group (EditorComponentRegistry.getAll s) →
  ∃ grouped, ComponentUtils.getComponentsByCategory s = Normal grouped.
Proof.
  intros Hplain. unfold ComponentUtils.getComponentsByCategory.
  match goal with
  | |- context [for_of ?step _ _] =>
      destruct (for_of_group_plain registration_group id step (λ _ _, eq_refl) _ ∅
                  Hplain) as (g & -> & _)
  end.
  by eexists.
Qed.

Lemma getComponentsByCategory_plain s grouped :
  ComponentUtils.getComponentsByCategory s = Normal grouped →
  no_prototype_key registration_group (EditorComponentRegistry.getAll s).
Proof.
  unfold ComponentUtils.getComponentsByCategory.
  destruct (for_of _ _ _) as [g|] eqn:E; [|done]. intros _.
  by apply (for_of_group_Normal registration_group id) in E as [? _].
Qed.

Lemma utils_query_entries componentType s :
  let query := ComponentUtils.getAllPropertyMetadata componentType s in
  JsMap.entries (deref query.2 query.1) = registered_properties componentType s.
Proof.
  unfold registered_properties, ComponentUtils.getAllPropertyMetadata,
    ComponentUtils.getComponentRegistration, new_Map, deref.
  destruct (EditorComponentRegistry.get componentType s); simpl; [done |].
  by rewrite lookup_insert_eq.
Qed.

(** The groups of properties are made from the entries of the
    registration alone. *)
Lemma getPropertiesByCategory_fst componentType s :
  (ComponentUtils.getPropertiesByCategory componentType s).1 =
  match
    for_of
      (λ grouped entry,
         ComponentUtils.group_push (property_group entry) entry grouped)
      (registered_properties componentType s) ∅
  with
  | Normal grouped =>
      Normal
        (JsArray.sort
           (ComponentUtils.compareOrder (λ a, PropertyMetadata.order a.2))
           <$> grouped)
  | TypeError => TypeError
  end.
Proof.
  unfold ComponentUtils.getPropertiesByCategory.
  pose proof (utils_query_entries componentType s) as Hentries. simpl in Hentries.
  destruct (ComponentUtils.getAllPropertyMetadata componentType s) as [properties s1].
  simpl in *. rewrite Hentries.
  assert (∀ xs (g : gmap string (list (string * PropertyMetadata.t))),
    for_of
      (λ grouped '(propertyName, metadata),
         ComponentUtils.group_push
           (string_or (PropertyMetadata.category metadata) "General 通用")
           (propertyName, metadata) grouped) xs g =
    for_of
      (λ grouped entry,
         ComponentUtils.group_push (property_group entry) entry grouped) xs g)
    as ->.
  { induction xs as [|[name metadata] xs IH]; intros g; [done |]. simpl.
    change (string_or (PropertyMetadata.category metadata) "General 通用")
      with (property_group (name, metadata)).
    destruct (ComponentUtils.group_push _ _ g); [apply IH | done]. }
  by destruct (for_of _ _ _).
Qed.

Lemma getPropertiesByCategory_throws componentType s :
  Exists (λ entry, inherited (property_group entry) = true)
    (registered_properties componentType s) →
  (ComponentUtils.getPropertiesByCategory componentType s).1 = TypeError.
Proof.
  intros Hex. rewrite getPropertiesByCategory_fst.
  by rewrite (for_of_group_throws property_group id).
Qed.

Lemma getPropertiesByCategory_lookup componentType s grouped :
  (ComponentUtils.getPropertiesByCategory componentType s).1 = Normal grouped →
  ∀ category,
  grouped !! category =
  match filter (λ entry, property_group entry = category)
          (registered_properties componentType s) with
  | [] => None
  | entry :: group =>
      Some (JsArray.sort
              (ComponentUtils.compareOrder (λ a, PropertyMetadata.order a.2))
              (entry :: group))
  end.
Proof.
  rewrite getPropertiesByCategory_fst.
  destruct (for_of _ _ _) as [g|] eqn:E; [|done]. intros [= <-] category.
  apply (for_of_group_Normal property_group id) in E as [_ Hlookup]; [|done].
  rewrite lookup_fmap, Hlookup.
  destruct (filter _ _) as [|r l]; [done |]. simpl. by rewrite map_id.
Qed.

Lemma getPropertiesByCategory_returns componentType s :
  no_prototype_key property_group (registered_properties componentType s) →
  ∃ grouped,
    (ComponentUtils.getPropertiesByCategory componentType s).1 = Normal grouped.
Proof.
  intros Hplain. rewrite getPropertiesByCategory_fst.
  match goal with
  | |- context [for_of ?step _ _] =>
      destruct (for_of_group_plain property_group id step (λ _ _, eq_refl) _ ∅
                  Hplain) as (g & -> & _)
  end.
  by eexists.
Qed.

Lemma getPropertiesByCategory_plain componentType s grouped :
  (ComponentUtils.getPropertiesByCategory componentType s).1 = Normal grouped →
  no_prototype_key property_group (registered_properties componentType s).
Proof.
  rewrite getPropertiesByCategory_fst.
  destruct (for_of _ _ _) as [g|] eqn:E; [|done]. intros _.
  by apply (for_of_group_Normal property_group id) in E as [? _].
Qed.

Lemma elem_of_sort {A} (cmp : A → A → Z) (x : A) (l : list A) :
  x ∈ JsArray.sort cmp l ↔ x ∈ l.
Proof.
  assert (JsArray.sort cmp l ≡ₚ l) as Hperm; [|by rewrite Hperm].
  induction l as [|y l IH]; simpl; [done |].
  rewrite <-IH at 2. generalize (JsArray.sort cmp l). intros l'.
  induction l' as [|z l' IH']; simpl; [done |].
  destruct (cmp y z <=? 0)%Z; [done |]. rewrite IH'. apply perm_swap.
Qed.

(** ** The registry: [getByCategory] *)

(** C3, as stated, fails: with Health (order 2) registered before Mana
    (order 1), [getByCategory "Gameplay"] returns Health before Mana, which
    is not ascending in [order]. *)
Lemma getByCategory_not_sorted_by_order :
  map ComponentRegistration.componentType
    (EditorComponentRegistry.getByCategory "Gameplay" scenario_gameplay)
    = [1%positive; 2%positive] ∧
  ¬ order_ascending ComponentUtils.registration_order
      (EditorComponentRegistry.getByCategory "Gameplay" scenario_gameplay).
Proof.
  split; [reflexivity |]. intros Hasc.
  assert (0 < 1) as Hlt by lia.
  specialize (Hasc 0 1 _ _ Hlt eq_refl eq_refl).
  vm_compute in Hasc. by apply Hasc.
Qed.

(** C3, amended.  [getByCategory c] returns exactly the stored
    registrations whose [metadata.category] equals [c], as a subsequence of
    [getAll], that is in registration order and without sorting by [order]:
    registering a type that was not registered appends its registration to
    [getAll], and to [getByCategory c] when its category is [c], whatever
    its [order]. *)
Theorem getByCategory_exact_match_in_registration_order (s : State)
    (category : string) (T : ComponentType) :
  EditorComponentRegistry.getByCategory category s =
    filter
      (λ reg, ComponentMetadata.category (ComponentRegistration.metadata reg)
              = Some category)
      (EditorComponentRegistry.getAll s) ∧
  (∀ reg,
     reg ∈ EditorComponentRegistry.getByCategory category s ↔
     reg ∈ EditorComponentRegistry.getAll s ∧
     ComponentMetadata.category (ComponentRegistration.metadata reg)
     = Some category) ∧
  EditorComponentRegistry.getByCategory category s
    `sublist_of` EditorComponentRegistry.getAll s ∧
  (∀ md,
     EditorComponentRegistry.has T s = false →
     Decorators.getComponentMetadata T s = Some md →
     let s' := EditorComponentRegistry.register T s in
     ∃ reg,
       EditorComponentRegistry.get T s' = Some reg ∧
       ComponentRegistration.metadata reg = md ∧
       EditorComponentRegistry.getAll s' = EditorComponentRegistry.getAll s ++ [reg] ∧
       EditorComponentRegistry.getByCategory category s' =
         EditorComponentRegistry.getByCategory category s ++
         (if decide (ComponentMetadata.category md = Some category)
          then [reg] else [])).
Proof.
  unfold EditorComponentRegistry.getByCategory. split_and!.
  - done.
  - intros reg. rewrite list_elem_of_filter. tauto.
  - apply sublist_filter.
  - intros md Hhas Hmd. set (s' := EditorComponentRegistry.register T s).
    exists (ComponentRegistration.mk T md (Decorators.getAllPropertyMetadata T s).1).
    assert (EditorComponentRegistry.getAll s' =
            EditorComponentRegistry.getAll s ++
            [ComponentRegistration.mk T md (Decorators.getAllPropertyMetadata T s).1])
      as Hall.
    { unfold EditorComponentRegistry.getAll, JsMap.values. subst s'.
      rewrite register_registrations.
      unfold Decorators.getComponentMetadata in Hmd. rewrite Hmd.
      rewrite JsMap_set_absent; [by rewrite fmap_app |].
      unfold EditorComponentRegistry.has, JsMap.has in Hhas.
      by destruct (JsMap.get T (registrations s)). }
    split_and!.
    + unfold EditorComponentRegistry.get. subst s'.
      rewrite register_registrations.
      unfold Decorators.getComponentMetadata in Hmd. rewrite Hmd.
      apply JsMap_get_set_eq.
    + done.
    + done.
    + rewrite Hall, filter_app. f_equal.
Qed.

Lemma getByCategory_exact_match_in_registration_order_witness :
  let s := EditorComponentRegistry.register 1
             (Decorators.componentDecorator
                (component_options "Mana" (Some "Gameplay") (Some 1%Z)) 2
                (Decorators.componentDecorator
                   (component_options "Health" (Some "Gameplay") (Some 2%Z)) 1
                   initial)) in
  EditorComponentRegistry.has 2 s = false ∧
  is_Some (Decorators.getComponentMetadata 2 s) ∧
  ∃ reg,
    EditorComponentRegistry.getByCategory "Gameplay"
      (EditorComponentRegistry.register 2 s) =
    EditorComponentRegistry.getByCategory "Gameplay" s ++ [reg].
Proof.
  intros s. split_and!; [reflexivity | by eexists |].
  destruct (getByCategory_exact_match_in_registration_order s "Gameplay" 2)
    as (_ & _ & _ & Happend).
  destruct (Happend _ eq_refl eq_refl) as (reg & _ & _ & _ & Hcat).
  exists reg. exact Hcat.
Defined.

(** ** The grouping helpers: default labels *)

(** C4, as stated, fails: for a registered component without category that
    has a property without category, both grouping helpers return, the
    component-grouping helper has no group under the key "Uncategorized" and
    the property-grouping helper has none under "General". *)
Lemma default_labels_are_not_the_plain_words :
  (∃ reg,
     reg ∈ EditorComponentRegistry.getAll scenario_plain ∧
     ComponentMetadata.category (ComponentRegistration.metadata reg) = None) ∧
  (∃ grouped,
     ComponentUtils.getComponentsByCategory scenario_plain = Normal grouped ∧
     grouped !! "Uncategorized" = None) ∧
  (∃ entry,
     entry ∈ registered_properties 1 scenario_plain ∧
     PropertyMetadata.category entry.2 = None) ∧
  (∃ grouped,
     (ComponentUtils.getPropertiesByCategory 1 scenario_plain).1 = Normal grouped ∧
     grouped !! "General" = None).
Proof.
  split_and!.
  - eexists. split; [by left | reflexivity].
  - eexists. split; reflexivity.
  - eexists. split; [by left | reflexivity].
  - eexists. split; reflexivity.
Qed.

(** C4, amended.  In every registry state in which no group key of a
    registration names a member of [Object.prototype], the
    component-grouping helper returns, and places every registration whose
    [metadata.category] is absent under the group key
    "Uncategorized 未分类" and under no other key.  For every type whose
    registration holds no property with a group key that names a member of
    [Object.prototype], the property-grouping helper returns, and places
    every property held by the registration of the type whose [category] is
    absent under the group key "General 通用" and under no other key.  The
    two labels differ, and neither names a member of [Object.prototype]. *)
Theorem default_group_labels (s : State) (T : ComponentType) :
  (no_prototype_key registration_group (EditorComponentRegistry.getAll s) →
   ∃ grouped,
     ComponentUtils.getComponentsByCategory s = Normal grouped ∧
     ∀ reg,
       reg ∈ EditorComponentRegistry.getAll s →
       ComponentMetadata.category (ComponentRegistration.metadata reg) = None →
       (∃ group, grouped !! "Uncategorized 未分类" = Some group ∧ reg ∈ group) ∧
       (∀ category group,
          grouped !! category = Some group →
          reg ∈ group → category = "Uncategorized 未分类")) ∧
  (no_prototype_key property_group (registered_properties T s) →
   ∃ grouped,
     (ComponentUtils.getPropertiesByCategory T s).1 = Normal grouped ∧
     ∀ entry,
       entry ∈ registered_properties T s →
       PropertyMetadata.category entry.2 = None →
       (∃ group, grouped !! "General 通用" = Some group ∧ entry ∈ group) ∧
       (∀ category group,
          grouped !! category = Some group →
          entry ∈ group → category = "General 通用")) ∧
  "Uncategorized 未分类" ≠ "General 通用" ∧
  inherited "Uncategorized 未分类" = false ∧
  inherited "General 通用" = false.
Proof.
  split_and!; [| |done..].
  - intros Hplain.
    destruct (getComponentsByCategory_returns s Hplain) as [grouped Hret].
    exists grouped. split; [done |]. intros reg Hin Hcat.
    assert (registration_group reg = "Uncategorized 未分类") as Hlabel
      by (unfold registration_group; by rewrite Hcat).
    split.
    + rewrite (getComponentsByCategory_lookup s grouped) by done.
      destruct (filter _ _) as [|r group] eqn:E.
      * assert (reg ∈ filter (λ reg, registration_group reg = "Uncategorized 未分类")
                        (EditorComponentRegistry.getAll s)) as Hf
          by (by apply list_elem_of_filter).
        rewrite E in Hf. by apply elem_of_nil in Hf.
      * eexists. split; [done |]. apply elem_of_sort. rewrite <-E.
        by apply list_elem_of_filter.
    + intros category group.
      rewrite (getComponentsByCategory_lookup s grouped) by done.
      destruct (filter _ _) as [|r group'] eqn:E; [done |].
      intros [= <-] Hg. apply (elem_of_sort _ _ (r :: group')) in Hg.
      rewrite <-E in Hg. apply list_elem_of_filter in Hg as [<- _]. done.
  - intros Hplain.
    destruct (getPropertiesByCategory_returns T s Hplain) as [grouped Hret].
    exists grouped. split; [done |]. intros entry Hin Hcat.
    assert (property_group entry = "General 通用") as Hlabel
      by (unfold property_group; by rewrite Hcat).
    split.
    + rewrite (getPropertiesByCategory_lookup T s grouped) by done.
      destruct (filter _ _) as [|r group] eqn:E.
      * assert (entry ∈ filter (λ entry, property_group entry = "General 通用")
                          (registered_properties T s)) as Hf
          by (by apply list_elem_of_filter).
        rewrite E in Hf. by apply elem_of_nil in Hf.
      * eexists. split; [done |]. apply elem_of_sort. rewrite <-E.
        by apply list_elem_of_filter.
    + intros category group.
      rewrite (getPropertiesByCategory_lookup T s grouped) by done.
      destruct (filter _ _) as [|r group'] eqn:E; [done |].
      intros [= <-] Hg. apply (elem_of_sort _ _ (r :: group')) in Hg.
      rewrite <-E in Hg. apply list_elem_of_filter in Hg as [<- _]. done.
Qed.

Lemma default_group_labels_witness :
  no_prototype_key registration_group
    (EditorComponentRegistry.getAll scenario_plain) ∧
  no_prototype_key property_group (registered_properties 1 scenario_plain) ∧
  (∃ reg grouped group,
     reg ∈ EditorComponentRegistry.getAll scenario_plain ∧
     ComponentMetadata.category (ComponentRegistration.metadata reg) = None ∧
     ComponentUtils.getComponentsByCategory scenario_plain = Normal grouped ∧
     grouped !! "Uncategorized 未分类" = Some group ∧ reg ∈ group) ∧
  (∃ entry grouped group,
     entry ∈ registered_properties 1 scenario_plain ∧
     PropertyMetadata.category entry.2 = None ∧
     (ComponentUtils.getPropertiesByCategory 1 scenario_plain).1 = Normal grouped ∧
     grouped !! "General 通用" = Some group ∧ entry ∈ group).
Proof.
  assert (no_prototype_key registration_group
            (EditorComponentRegistry.getAll scenario_plain)) as Hcomponents
    by (repeat constructor).
  assert (no_prototype_key property_group
            (registered_properties 1 scenario_plain)) as Hproperties
    by (repeat constructor).
  destruct (default_group_labels scenario_plain 1) as (Hc & Hp & _).
  destruct (Hc Hcomponents) as (groupedc & Hretc & Hgroupc).
  destruct (Hp Hproperties) as (groupedp & Hretp & Hgroupp).
  split_and!; [done | done | |].
  - edestruct (Hgroupc _ ltac:(left) eq_refl) as [(group & Hgroup & Hin) _].
    eexists _, _, _. split_and!; [left | reflexivity | exact Hretc | exact Hgroup | exact Hin].
  - edestruct (Hgroupp _ ltac:(left) eq_refl) as [(group & Hgroup & Hin) _].
    eexists _, _, _. split_and!; [left | reflexivity | exact Hretp | exact Hgroup | exact Hin].
Defined.

(** ** The query helpers: sorting by [order] *)

(** C5, as stated, fails: with a component without [order] registered
    before a component of order 1000, [getAvailableComponentTypes] lists the
    one without order first, so an entry with an explicit order does not
    come before every entry without one. *)
Lemma explicit_order_may_follow_missing_order :
  map fst (ComponentUtils.getAvailableComponentTypes scenario_late)
    = [1%positive; 2%positive] ∧
  ¬ explicit_before_missing (λ a, ComponentUtils.registration_order a.2)
      (ComponentUtils.getAvailableComponentTypes scenario_late).
Proof.
  split; [reflexivity |]. intros Hbefore.
  assert (is_Some (Some 1000%Z)) as Hexplicit by (by eexists).
  pose proof (Hbefore 1 0 _ _ eq_refl eq_refl Hexplicit eq_refl) as Hlt.
  lia.
Qed.

(** C5, amended.  Each sorted output the query helpers return (the addable
    components, each group of components of one category, each group of
    properties of one category) is a stable sort of its input by [order]
    ascending with a missing [order] treated as 999: the output holds the
    entries of the input; the entries sharing the same effective order (the
    default included) keep their relative prior order; among the entries
    whose [order] is not [0] the output is ascending in effective order; and
    every entry with an explicit non-zero order below 999 comes before every
    entry without one.  Where an entry of order [0] is placed among the
    entries of other orders is left open. *)
Theorem helpers_sort_stably_by_order (s : State) (T : ComponentType) :
  stable_by_order (λ a, ComponentUtils.registration_order a.2)
    (map (λ reg, (ComponentRegistration.componentType reg, reg))
       (EditorComponentRegistry.getAddable s))
    (ComponentUtils.getAvailableComponentTypes s) ∧
  (∀ grouped category group,
     ComponentUtils.getComponentsByCategory s = Normal grouped →
     grouped !! category = Some group →
     stable_by_order ComponentUtils.registration_order
       (filter (λ reg, registration_group reg = category)
          (EditorComponentRegistry.getAll s))
       group) ∧
  (∀ grouped category group,
     (ComponentUtils.getPropertiesByCategory T s).1 = Normal grouped →
     grouped !! category = Some group →
     stable_by_order (λ entry, PropertyMetadata.order entry.2)
       (filter (λ entry, property_group entry = category)
          (registered_properties T s))
       group).
Proof.
  split_and!.
  - apply sort_stable_by_order.
  - intros grouped category group Hret.
    rewrite (getComponentsByCategory_lookup s grouped) by done.
    destruct (filter _ _) as [|reg l]; [done |]. intros [= <-].
    apply (sort_stable_by_order ComponentUtils.registration_order (reg :: l)).
  - intros grouped category group Hret.
    rewrite (getPropertiesByCategory_lookup T s grouped) by done.
    destruct (filter _ _) as [|entry l]; [done |]. intros [= <-].
    apply (sort_stable_by_order (λ entry, PropertyMetadata.order entry.2)
             (entry :: l)).
Qed.

Lemma helpers_sort_stably_by_order_witness :
  ∃ grouped group,
    ComponentUtils.getComponentsByCategory scenario_gameplay = Normal grouped ∧
    grouped !! "Gameplay" = Some group ∧
    map ComponentRegistration.componentType group = [2%positive; 1%positive] ∧
    stable_by_order ComponentUtils.registration_order
      (filter (λ reg, registration_group reg = "Gameplay")
         (EditorComponentRegistry.getAll scenario_gameplay))
      group.
Proof.
  eexists _, _. split; [reflexivity |]. split; [reflexivity |].
  split; [reflexivity |].
  destruct (helpers_sort_stably_by_order scenario_gameplay 1) as (_ & Hgroups & _).
  eapply (Hgroups _ "Gameplay"); reflexivity.
Defined.

(** ** The property store and the sharing of property maps *)

Lemma fresh_not_allocated (s : State) : heap s !! fresh (dom (heap s)) = None.
Proof. apply not_elem_of_dom, is_fresh. Qed.

Lemma heap_inv_new_Map s : heap_inv s → heap_inv (new_Map s).2.
Proof.
  intros [I1 I2]. split; simpl; [|done].
  intros T l Hl. apply lookup_insert_is_Some'. right. by eapply I1.
Qed.

Lemma reachable_heap_inv s : reachable s → heap_inv s.
Proof.
  induction 1 as [|options target s _ IH|options T key s _ IH|s _ IH
                 |T s _ IH|T s _ IH|s _ IH|T s _ IH].
  - split; simpl; intros *; by rewrite lookup_empty.
  - by destruct IH.
  - destruct IH as [I1 I2]. unfold Decorators.property.
    destruct (propertyMetadataMap s !! T) as [l|] eqn:E; simpl.
    + rewrite E. split; simpl; [|done].
      intros U l' Hl'. apply lookup_alter_is_Some. by eapply I1.
    + rewrite lookup_insert_eq. split; simpl.
      * intros U l'. rewrite lookup_insert. case_decide as HU.
        -- intros [= <-]. apply lookup_alter_is_Some.
           by rewrite lookup_insert_eq.
        -- intros Hl'. apply lookup_alter_is_Some, lookup_insert_is_Some'.
           right. by eapply I1.
      * intros U1 U2 l'. rewrite !lookup_insert.
        pose proof (fresh_not_allocated s) as Hfresh.
        repeat case_decide; subst; try done.
        -- intros [= <-] Hl'. apply I1 in Hl'. rewrite Hfresh in Hl'.
           by destruct Hl'.
        -- intros Hl' [= <-]. apply I1 in Hl'. rewrite Hfresh in Hl'.
           by destruct Hl'.
        -- apply I2.
  - by destruct IH.
  - unfold Decorators.getAllPropertyMetadata.
    destruct (propertyMetadataMap s !! T); [done | by apply heap_inv_new_Map].
  - unfold EditorComponentRegistry.register, Decorators.getAllPropertyMetadata.
    destruct (propertyMetadataMap s !! T) as [l|] eqn:E;
      [|apply heap_inv_new_Map in IH];
      destruct IH as [I1 I2];
      destruct (Decorators.getComponentMetadata T s); by split.
  - by destruct IH.
  - unfold ComponentUtils.getAllPropertyMetadata.
    destruct (ComponentUtils.getComponentRegistration T s);
      [done | by apply heap_inv_new_Map].
Qed.

(** [@property] sets one entry of the map of its own type. *)
Lemma property_declared_properties options T key s :
  reachable s →
  declared_properties T (Decorators.property options T key s) =
  JsMap.set key options (declared_properties T s).
Proof.
  intros [I1 _]%reachable_heap_inv.
  unfold declared_properties, Decorators.property, JsMap.entries, deref.
  destruct (propertyMetadataMap s !! T) as [l|] eqn:E; simpl.
  - rewrite E. simpl. rewrite E, lookup_alter_eq.
    by destruct (I1 _ _ E) as [m ->].
  - rewrite lookup_insert_eq. simpl.
    by rewrite lookup_insert_eq, lookup_alter_eq, lookup_insert_eq.
Qed.

(** [@property] leaves the maps of the other types alone. *)
Lemma property_declared_properties_other options T U key s :
  reachable s → T ≠ U →
  declared_properties U (Decorators.property options T key s) =
  declared_properties U s.
Proof.
  intros [I1 I2]%reachable_heap_inv Hne.
  unfold declared_properties, Decorators.property, JsMap.entries, deref.
  pose proof (fresh_not_allocated s) as Hfresh.
  destruct (propertyMetadataMap s !! T) as [l|] eqn:E; simpl.
  - rewrite E. simpl.
    destruct (propertyMetadataMap s !! U) as [l'|] eqn:E'; [|done].
    rewrite lookup_alter_ne; [done |]. intros ->. apply Hne. by eapply I2.
  - rewrite lookup_insert_eq. simpl. rewrite lookup_insert_ne by done.
    destruct (propertyMetadataMap s !! U) as [l'|] eqn:E'; [|done].
    assert (fresh (dom (heap s)) ≠ l') as Hl'.
    { intros <-. apply I1 in E'. rewrite Hfresh in E'. by destruct E'. }
    by rewrite lookup_alter_ne, lookup_insert_ne.
Qed.

(** A property declared after [register] is seen through the registration
    when the type had a property map at registration: the registration
    holds the very map object of the store. *)
Lemma property_after_register_shared options T key md l s :
  reachable s →
  Decorators.getComponentMetadata T s = Some md →
  propertyMetadataMap s !! T = Some l →
  ComponentUtils.getPropertyMetadata T key
    (Decorators.property options T key (EditorComponentRegistry.register T s))
  = Some options.
Proof.
  intros Hr Hmd Hl. destruct (reachable_heap_inv s Hr) as [I1 _].
  destruct (I1 _ _ Hl) as [m Hm].
  unfold ComponentUtils.getPropertyMetadata, ComponentUtils.getComponentRegistration,
    EditorComponentRegistry.get.
  destruct (property_frame options T key (EditorComponentRegistry.register T s))
    as (_ & _ & ->).
  rewrite register_registrations.
  unfold Decorators.getComponentMetadata in Hmd. rewrite Hmd, JsMap_get_set_eq.
  simpl. unfold Decorators.getAllPropertyMetadata. rewrite Hl. simpl.
  unfold deref, Decorators.property, EditorComponentRegistry.register,
    Decorators.getAllPropertyMetadata, Decorators.getComponentMetadata.
  repeat (first [rewrite Hl | rewrite Hmd]; simpl).
  rewrite lookup_alter_eq, Hm. simpl. apply JsMap_get_set_eq.
Qed.

(** When the type had no property map at registration, the registration
    holds an empty map of its own, and a property declared afterwards goes
    to a new map of the store: the registration does not see it. *)
Lemma property_after_register_separate options T key md s :
  Decorators.getComponentMetadata T s = Some md →
  propertyMetadataMap s !! T = None →
  ComponentUtils.getPropertyMetadata T key
    (Decorators.property options T key (EditorComponentRegistry.register T s))
  = None.
Proof.
  intros Hmd Hl.
  unfold ComponentUtils.getPropertyMetadata, ComponentUtils.getComponentRegistration,
    EditorComponentRegistry.get.
  destruct (property_frame options T key (EditorComponentRegistry.register T s))
    as (_ & _ & ->).
  rewrite register_registrations.
  unfold Decorators.getComponentMetadata in Hmd. rewrite Hmd, JsMap_get_set_eq.
  simpl. unfold Decorators.getAllPropertyMetadata. rewrite Hl. simpl.
  unfold deref, Decorators.property, EditorComponentRegistry.register,
    Decorators.getAllPropertyMetadata, Decorators.getComponentMetadata.
  repeat (first [rewrite Hl | rewrite Hmd]; simpl).
  rewrite lookup_insert_eq. simpl.
  set (l1 := fresh (dom (heap s))).
  set (l2 := fresh (dom (<[l1 := []]> (heap s)))).
  assert (l2 ≠ l1) as Hne.
  { intros Heq. apply (is_fresh (dom (<[l1 := []]> (heap s)))).
    fold l2. rewrite Heq. apply elem_of_dom. by rewrite lookup_insert_eq. }
  by rewrite lookup_alter_ne, lookup_insert_ne, lookup_insert_eq.
Qed.

(** ** Plugin installation and auto-discovery *)

Lemma register_has_self T s :
  is_Some (Decorators.getComponentMetadata T s) →
  EditorComponentRegistry.has T (EditorComponentRegistry.register T s) = true.
Proof.
  intros [md Hmd]. unfold EditorComponentRegistry.has, JsMap.has.
  rewrite register_registrations.
  unfold Decorators.getComponentMetadata in Hmd.
  by rewrite Hmd, JsMap_get_set_eq.
Qed.

Lemma register_has_other T U s :
  EditorComponentRegistry.has U s = true →
  EditorComponentRegistry.has U (EditorComponentRegistry.register T s) = true.
Proof.
  unfold EditorComponentRegistry.has, JsMap.has.
  rewrite register_registrations.
  destruct (componentMetadataMap s !! T) as [md|]; [|done].
  destruct (decide (T = U)) as [->|Hne].
  - by rewrite JsMap_get_set_eq.
  - by rewrite JsMap_get_set_ne.
Qed.

Lemma install_has_other componentTypes U s :
  EditorComponentRegistry.has U s = true →
  EditorComponentRegistry.has U (install componentTypes s) = true.
Proof.
  revert s. induction componentTypes as [|T l IH]; intros s Hhas; [done |].
  simpl. apply IH. by apply register_has_other.
Qed.

(** [install] registers every type of the plugin that has a descriptor. *)
Lemma install_registers componentTypes T s :
  T ∈ componentTypes →
  is_Some (Decorators.getComponentMetadata T s) →
  EditorComponentRegistry.has T (install componentTypes s) = true.
Proof.
  revert s. induction componentTypes as [|U l IH]; intros s Hin Hmd.
  - by apply elem_of_nil in Hin.
  - simpl. apply elem_of_cons in Hin as [->|Hin].
    + by apply install_has_other, register_has_self.
    + apply IH; [done |]. unfold Decorators.getComponentMetadata.
      by destruct (register_frame U s) as (-> & _).
Qed.

(** [discoverAndRegisterComponents] registers every declared type. *)
Lemma discoverAndRegisterComponents_registers T s :
  reachable s →
  T ∈ Decorators.getAllRegisteredComponentTypes s →
  EditorComponentRegistry.has T (discoverAndRegisterComponents s) = true.
Proof.
  intros [_ I2 _ _]%reachable_inv Hin.
  apply (install_registers (Decorators.getAllRegisteredComponentTypes s));
    [done | by apply I2].
Qed.

(** ** The scenarios of the specification, by evaluation *)

Example scenario_gameplay_properties :
  ∃ grouped,
    (ComponentUtils.getPropertiesByCategory 1 scenario_gameplay).1 = Normal grouped ∧
    map_to_list grouped =
    [("Stats", [("hp", property_options TRange (Some "Stats") (Some 1%Z))])].
Proof. eexists. split; reflexivity. Qed.

Example scenario_gameplay_groups :
  ∃ grouped,
    ComponentUtils.getComponentsByCategory scenario_gameplay = Normal grouped ∧
    map ComponentRegistration.componentType <$> grouped !! "Gameplay"
    = Some [2%positive; 1%positive].
Proof. eexists. split; reflexivity. Qed.

Example scenario_audio_statistics :
  let stats := EditorComponentRegistry.getStatistics scenario_audio in
  EditorComponentRegistry.totalComponents stats = 3 ∧
  EditorComponentRegistry.addableComponents stats = 3 ∧
  map_to_list (EditorComponentRegistry.categorizedComponents stats)
    = [("Audio", JsNumber 2)] ∧
  ∃ grouped,
    ComponentUtils.getComponentsByCategory scenario_audio = Normal grouped ∧
    length <$> grouped !! "Uncategorized 未分类" = Some 1.
Proof. split_and!; [reflexivity.. |]. eexists. split; reflexivity. Qed.

Example scenario_constructor_groups :
  EditorComponentRegistry.getByCategory "constructor" scenario_constructor ≠ [] ∧
  ComponentUtils.getComponentsByCategory scenario_constructor = TypeError ∧
  ComponentUtils.getRegistryStatistics scenario_constructor = TypeError.
Proof. split_and!; [done | reflexivity..]. Qed.

Example scenario_toString_properties :
  ComponentUtils.getPropertyMetadata 1 "text" scenario_toString
    = Some (property_options TString (Some "toString") None) ∧
  (ComponentUtils.getPropertiesByCategory 1 scenario_toString).1 = TypeError ∧
  ∃ grouped,
    ComponentUtils.getComponentsByCategory scenario_toString = Normal grouped.
Proof. split_and!; [reflexivity.. |]. eexists. reflexivity. Qed.

Example scenario_clear :
  let s := EditorComponentRegistry.clear (Decorators.clearAllMetadata scenario_audio) in
  Decorators.getAllRegisteredComponentTypes s = [] ∧
  EditorComponentRegistry.getAll s = [].
Proof. split; reflexivity. Qed.

(** * Further properties of the code *)

(** ** More invariants of the reachable states *)

Lemma JsSet_add_NoDup {A} `{EqDecision A} (x : A) (s : list A) :
  NoDup s → NoDup (JsSet.add x s).
Proof.
  intros Hnd. unfold JsSet.add. case_decide as Hin; [done |].
  apply NoDup_app. split_and!; [done | | apply NoDup_singleton].
  by intros y Hy ->%list_elem_of_singleton.
Qed.

Lemma reachable_declared_NoDup s : reachable s → NoDup (globalComponentRegistry s).
Proof.
  induction 1 as [|options target s _ IH|options T key s _ IH|s _ IH
                 |T s _ IH|T s _ IH|s _ IH|T s _ IH].
  - constructor.
  - simpl. by apply JsSet_add_NoDup.
  - by destruct (property_frame options T key s) as (_ & -> & _).
  - constructor.
  - by destruct (store_query_frame T s) as (_ & _ & -> & _).
  - by destruct (register_frame T s) as (_ & _ & ->).
  - done.
  - by destruct (utils_query_frame T s) as (_ & _ & -> & _).
Qed.

(** No property map of the heap holds a name twice. *)
Lemma reachable_maps_NoDup s l m :
  reachable s → heap s !! l = Some m → NoDup m.*1.
Proof.
  intros Hr. revert l m.
  induction Hr as [|options target s _ IH|options T key s _ IH|s _ IH
                  |T s _ IH|T s _ IH|s _ IH|T s _ IH]; intros l m.
  - simpl. by rewrite lookup_empty.
  - apply IH.
  - assert (∀ (h : gmap loc PropertyMap) l0,
      (∀ l m, h !! l = Some m → NoDup m.*1) →
      alter (JsMap.set key options) l0 h !! l = Some m → NoDup m.*1) as Halter.
    { intros h l0 Hh. rewrite lookup_alter. case_decide as Hl; [|apply Hh].
      subst l0. destruct (h !! l) as [m0|] eqn:E; [|done].
      intros [= <-]. rewrite JsMap_keys_set. case_decide as Hin; [by eapply Hh |].
      apply NoDup_app. split_and!; [by eapply Hh | | apply NoDup_singleton].
      by intros y Hy ->%list_elem_of_singleton. }
    unfold Decorators.property.
    destruct (propertyMetadataMap s !! T) as [l0|] eqn:E; simpl.
    + rewrite E. simpl. by apply Halter.
    + rewrite lookup_insert_eq. simpl. apply Halter.
      intros l1 m1. rewrite lookup_insert. case_decide; [|apply IH].
      intros [= <-]. constructor.
  - apply IH.
  - unfold Decorators.getAllPropertyMetadata.
    destruct (propertyMetadataMap s !! T); [apply IH |]. simpl.
    rewrite lookup_insert. case_decide; [|apply IH]. intros [= <-]. constructor.
  - unfold EditorComponentRegistry.register, Decorators.getAllPropertyMetadata.
    destruct (propertyMetadataMap s !! T);
      destruct (Decorators.getComponentMetadata T s); simpl; try apply IH;
      (rewrite lookup_insert; case_decide; [|apply IH]; intros [= <-]; constructor).
  - apply IH.
  - unfold ComponentUtils.getAllPropertyMetadata.
    destruct (ComponentUtils.getComponentRegistration T s); [apply IH |]. simpl.
    rewrite lookup_insert. case_decide; [|apply IH]. intros [= <-]. constructor.
Qed.

Lemma reachable_install componentTypes s :
  reachable s → reachable (install componentTypes s).
Proof.
  revert s. induction componentTypes as [|T l IH]; intros s Hr; [done |].
  simpl. apply IH. by constructor.
Qed.

(** The types [getAll] lists are the keys of the registration map. *)
Lemma getAll_types s :
  reachable s →
  map ComponentRegistration.componentType (EditorComponentRegistry.getAll s)
  = (registrations s).*1.
Proof.
  intros [_ _ I3 _]%reachable_inv.
  unfold EditorComponentRegistry.getAll, JsMap.values.
  induction (registrations s) as [|[k reg] m IH]; [done |]. simpl. f_equal.
  - apply I3. by left.
  - apply IH. intros T r Hin. apply I3. by right.
Qed.

Lemma has_true_iff_key T s :
  EditorComponentRegistry.has T s = true ↔ T ∈ (registrations s).*1.
Proof.
  unfold EditorComponentRegistry.has, JsMap.has.
  destruct (JsMap.get T (registrations s)) eqn:E.
  - split; [intros _ | done].
    apply JsMap_get_Some_elem_of in E. apply list_elem_of_fmap. by eexists (_, _).
  - split; [done |]. by apply JsMap_get_None in E.
Qed.

Lemma getPropertyMetadata_declared T name s :
  Decorators.getPropertyMetadata T name s = JsMap.get name (declared_properties T s).
Proof.
  unfold Decorators.getPropertyMetadata, declared_properties, JsMap.entries.
  by destruct (propertyMetadataMap s !! T).
Qed.

Lemma reachable_scenario_gameplay : reachable scenario_gameplay.
Proof. repeat constructor. Qed.

Lemma reachable_scenario_unregistered : reachable scenario_unregistered.
Proof. repeat constructor. Qed.

Lemma reachable_scenario_zero_order : reachable scenario_zero_order.
Proof. apply reachable_install. repeat constructor. Qed.

(** ** The declaration interface *)

(** X1.  After [@component(options)] on [T], [hasComponentMetadata T] is
    true and [getComponentMetadata T] returns the declared name,
    description, icon, category and order with [removable] and [addable]
    stored as booleans that are false only when declared [false]; [T] is in
    the declared types; the descriptors of the other types, all property
    metadata and the registry are untouched; a second declaration on [T]
    replaces the first without trace and adds no second entry for [T]. *)
Theorem component_declaration_round_trip (options : ComponentMetadata.t)
    (T : ComponentType) (s : State) :
  let s' := Decorators.componentDecorator options T s in
  Decorators.hasComponentMetadata T s' = true ∧
  (∃ md,
     Decorators.getComponentMetadata T s' = Some md ∧
     ComponentMetadata.displayName md = ComponentMetadata.displayName options ∧
     ComponentMetadata.description md = ComponentMetadata.description options ∧
     ComponentMetadata.icon md = ComponentMetadata.icon options ∧
     ComponentMetadata.category md = ComponentMetadata.category options ∧
     ComponentMetadata.order md = ComponentMetadata.order options ∧
     ComponentMetadata.removable md =
       Some (negb (bool_decide (ComponentMetadata.removable options = Some false))) ∧
     ComponentMetadata.addable md =
       Some (negb (bool_decide (ComponentMetadata.addable options = Some false)))) ∧
  T ∈ Decorators.getAllRegisteredComponentTypes s' ∧
  (∀ U,
     U ≠ T →
     Decorators.getComponentMetadata U s' = Decorators.getComponentMetadata U s ∧
     Decorators.hasComponentMetadata U s' = Decorators.hasComponentMetadata U s ∧
     (U ∈ Decorators.getAllRegisteredComponentTypes s' ↔
      U ∈ Decorators.getAllRegisteredComponentTypes s)) ∧
  (∀ U name,
     Decorators.getPropertyMetadata U name s' =
     Decorators.getPropertyMetadata U name s) ∧
  EditorComponentRegistry.getAll s' = EditorComponentRegistry.getAll s ∧
  (∀ options2,
     let s'' := Decorators.componentDecorator options2 T s' in
     Decorators.getComponentMetadata T s'' =
       Decorators.getComponentMetadata T (Decorators.componentDecorator options2 T s) ∧
     Decorators.getAllRegisteredComponentTypes s'' =
       Decorators.getAllRegisteredComponentTypes s').
Proof.
  intros s'. unfold Decorators.hasComponentMetadata,
    Decorators.getComponentMetadata, Decorators.getAllRegisteredComponentTypes.
  subst s'. simpl. split_and!.
  - rewrite lookup_insert_eq. by apply bool_decide_eq_true.
  - rewrite lookup_insert_eq. eexists. split; [done |]. simpl.
    split_and!; try done.
    + by destruct (ComponentMetadata.removable options) as [[]|].
    + by destruct (ComponentMetadata.addable options) as [[]|].
  - apply JsSet_elem_of_add. by left.
  - intros U HU. rewrite lookup_insert_ne by done. split_and!; [done | done |].
    rewrite JsSet_elem_of_add. split; [by intros [?|?] | by right].
  - done.
  - done.
  - intros options2. split; [by rewrite !lookup_insert_eq |].
    unfold JsSet.add at 1. rewrite decide_True; [done |].
    apply JsSet_elem_of_add. by left.
Qed.

(** X2.  In every reachable state the declared types are pairwise distinct
    and each of them has a descriptor, and declaring a type that is already
    among them leaves the sequence [getAllRegisteredComponentTypes] returns
    as it is (same members, same order). *)
Theorem declared_types_are_distinct (s : State) (options : ComponentMetadata.t)
    (T : ComponentType) :
  reachable s →
  NoDup (Decorators.getAllRegisteredComponentTypes s) ∧
  (∀ U,
     U ∈ Decorators.getAllRegisteredComponentTypes s →
     Decorators.hasComponentMetadata U s = true) ∧
  (T ∈ Decorators.getAllRegisteredComponentTypes s →
   Decorators.getAllRegisteredComponentTypes
     (Decorators.componentDecorator options T s) =
   Decorators.getAllRegisteredComponentTypes s) ∧
  (T ∉ Decorators.getAllRegisteredComponentTypes s →
   Decorators.getAllRegisteredComponentTypes
     (Decorators.componentDecorator options T s) =
   Decorators.getAllRegisteredComponentTypes s ++ [T]).
Proof.
  intros Hr. unfold Decorators.getAllRegisteredComponentTypes,
    Decorators.hasComponentMetadata.
  split_and!.
  - by apply reachable_declared_NoDup.
  - intros U HU. apply bool_decide_eq_true.
    by apply (inv_declared _ (reachable_inv _ Hr)).
  - intros Hin. simpl. unfold JsSet.add. by rewrite decide_True.
  - intros Hin. simpl. unfold JsSet.add. by rewrite decide_False.
Qed.

Lemma declared_types_are_distinct_witness :
  reachable scenario_gameplay ∧
  NoDup (Decorators.getAllRegisteredComponentTypes scenario_gameplay) ∧
  Decorators.getAllRegisteredComponentTypes
    (Decorators.componentDecorator (component_options "Mana II" None None) 2
       scenario_gameplay)
  = [1%positive; 2%positive].
Proof.
  pose proof reachable_scenario_gameplay as Hr.
  destruct (declared_types_are_distinct scenario_gameplay
              (component_options "Mana II" None None) 2 Hr)
    as (Hnd & _ & Hsame & _).
  split_and!; [exact Hr | exact Hnd |].
  rewrite Hsame; [reflexivity |]. vm_compute. right. left.
Defined.

(** X3.  In a reachable state, after [@property(options)] on the field
    [key] of [T], [getPropertyMetadata T key] returns [options]; the other
    fields of [T], the fields of every other type, all component
    descriptors, the declared types and the registrations are unchanged. *)
Theorem property_declaration_round_trip (options : PropertyMetadata.t)
    (T : ComponentType) (key : string) (s : State) :
  reachable s →
  let s' := Decorators.property options T key s in
  Decorators.getPropertyMetadata T key s' = Some options ∧
  (∀ name,
     name ≠ key →
     Decorators.getPropertyMetadata T name s' =
     Decorators.getPropertyMetadata T name s) ∧
  (∀ U name,
     U ≠ T →
     Decorators.getPropertyMetadata U name s' =
     Decorators.getPropertyMetadata U name s) ∧
  (∀ U,
     Decorators.getComponentMetadata U s' = Decorators.getComponentMetadata U s) ∧
  Decorators.getAllRegisteredComponentTypes s' =
    Decorators.getAllRegisteredComponentTypes s ∧
  registrations s' = registrations s.
Proof.
  intros Hr s'. subst s'.
  destruct (property_frame options T key s) as (E1 & E2 & E3).
  split_and!.
  - rewrite getPropertyMetadata_declared, property_declared_properties by done.
    apply JsMap_get_set_eq.
  - intros name Hne.
    rewrite !getPropertyMetadata_declared, property_declared_properties by done.
    by apply JsMap_get_set_ne.
  - intros U name HU.
    rewrite !getPropertyMetadata_declared.
    by rewrite property_declared_properties_other.
  - intros U. unfold Decorators.getComponentMetadata. by rewrite E1.
  - done.
  - done.
Qed.

Lemma property_declaration_round_trip_witness :
  let options := property_options TNumber (Some "Lens") None in
  reachable scenario_gameplay ∧
  Decorators.getPropertyMetadata 1 "fov"
    (Decorators.property options 1 "fov" scenario_gameplay) = Some options ∧
  Decorators.getPropertyMetadata 1 "hp"
    (Decorators.property options 1 "fov" scenario_gameplay)
  = Some (property_options TRange (Some "Stats") (Some 1%Z)).
Proof.
  intros options. pose proof reachable_scenario_gameplay as Hr.
  destruct (property_declaration_round_trip options 1 "fov" scenario_gameplay Hr)
    as (Hkey & Hother & _).
  split_and!; [exact Hr | exact Hkey |].
  rewrite (Hother "hp"); [reflexivity | discriminate].
Defined.

(** X4.  In a reachable state the property map of a type holds no field
    name twice and keeps the fields in the order of their first
    declaration: declaring a field again overwrites its descriptor in
    place, declaring a new field appends it. *)
Theorem property_declaration_keeps_first_order (options : PropertyMetadata.t)
    (T : ComponentType) (key : string) (s : State) :
  reachable s →
  let names := (declared_properties T s).*1 in
  let s' := Decorators.property options T key s in
  NoDup names ∧
  (key ∈ names → (declared_properties T s').*1 = names) ∧
  (key ∉ names → (declared_properties T s').*1 = names ++ [key]) ∧
  length (declared_properties T s') =
    (if decide (key ∈ names) then length names else S (length names)).
Proof.
  intros Hr names s'.
  assert ((declared_properties T s').*1 =
          if decide (key ∈ names) then names else names ++ [key]) as Hkeys.
  { subst s' names. rewrite property_declared_properties by done.
    apply JsMap_keys_set. }
  split_and!.
  - subst names. unfold declared_properties, JsMap.entries, deref.
    destruct (propertyMetadataMap s !! T) as [l|]; [|constructor].
    destruct (heap s !! l) as [m|] eqn:E; [|constructor].
    by eapply reachable_maps_NoDup.
  - intros Hin. by rewrite Hkeys, decide_True.
  - intros Hin. by rewrite Hkeys, decide_False.
  - rewrite <-(length_fmap fst (declared_properties T s')), Hkeys.
    case_decide; [done |]. rewrite length_app. simpl. lia.
Qed.

Lemma property_declaration_keeps_first_order_witness :
  let s := Decorators.property (property_options TNumber None None) 1 "mp"
             scenario_gameplay in
  reachable s ∧
  (declared_properties 1 s).*1 = ["hp"; "mp"] ∧
  (declared_properties 1
     (Decorators.property (property_options TRange None (Some 3%Z)) 1 "hp" s)).*1
  = ["hp"; "mp"].
Proof.
  intros s.
  assert (reachable s) as Hr by (constructor; apply reachable_scenario_gameplay).
  destruct (property_declaration_keeps_first_order
              (property_options TRange None (Some 3%Z)) 1 "hp" s Hr)
    as (_ & Hsame & _).
  split_and!; [exact Hr | reflexivity |].
  rewrite Hsame; [reflexivity |]. vm_compute. left.
Defined.

(** ** Registrations and the property maps they hold *)

(** A stored property map has at least one entry. *)
Lemma reachable_declared_nonempty s T l :
  reachable s → propertyMetadataMap s !! T = Some l →
  ∃ entry m, heap s !! l = Some (entry :: m).
Proof.
  intros Hr. revert T l.
  induction Hr as [|options target s _ IH|options T key s Hr IH|s _ IH
                  |T s Hr IH|T s Hr IH|s _ IH|T s Hr IH]; intros U l.
  - simpl. by rewrite lookup_empty.
  - apply IH.
  - assert (∀ m : PropertyMap, ∃ entry m', JsMap.set key options m = entry :: m')
      as Hset.
    { intros [|[k v] m]; simpl; [by eexists _, _ |].
      destruct (decide (k = key)); by eexists _, _. }
    unfold Decorators.property.
    destruct (propertyMetadataMap s !! T) as [l0|] eqn:E; simpl.
    + rewrite E. simpl. intros HU. destruct (IH _ _ HU) as (e & m & Hm).
      rewrite lookup_alter. case_decide; [subst l0 | by eexists _, _].
      destruct (Hset (e :: m)) as (e' & m' & Heq).
      exists e', m'. by rewrite Hm, <-Heq.
    + rewrite lookup_insert_eq. simpl.
      pose proof (fresh_not_allocated s) as Hfresh.
      rewrite lookup_insert. case_decide as HU.
      * intros [= <-]. rewrite lookup_alter_eq, lookup_insert_eq. simpl.
        by eexists _, _.
      * intros Hl. destruct (IH _ _ Hl) as (e & m & Hm).
        rewrite lookup_alter_ne, lookup_insert_ne; [by eexists _, _ | |];
          intros <-; by rewrite Hfresh in Hm.
  - apply IH.
  - unfold Decorators.getAllPropertyMetadata.
    destruct (propertyMetadataMap s !! T); [apply IH |]. simpl.
    intros Hl. destruct (IH _ _ Hl) as (e & m & Hm).
    rewrite lookup_insert_ne; [by eexists _, _ |].
    intros <-. by rewrite fresh_not_allocated in Hm.
  - unfold EditorComponentRegistry.register, Decorators.getAllPropertyMetadata.
    destruct (propertyMetadataMap s !! T);
      destruct (Decorators.getComponentMetadata T s); simpl; try apply IH;
      (intros Hl; destruct (IH _ _ Hl) as (e & m & Hm);
       rewrite lookup_insert_ne; [by eexists _, _ |];
       intros <-; by rewrite fresh_not_allocated in Hm).
  - apply IH.
  - unfold ComponentUtils.getAllPropertyMetadata.
    destruct (ComponentUtils.getComponentRegistration T s); [apply IH |]. simpl.
    intros Hl. destruct (IH _ _ Hl) as (e & m & Hm).
    rewrite lookup_insert_ne; [by eexists _, _ |].
    intros <-. by rewrite fresh_not_allocated in Hm.
Qed.

(** A type has declared properties exactly when the store holds a map for it. *)
Lemma declared_properties_nil s T :
  reachable s →
  declared_properties T s = [] ↔ propertyMetadataMap s !! T = None.
Proof.
  intros Hr. unfold declared_properties, JsMap.entries, deref.
  destruct (propertyMetadataMap s !! T) as [l|] eqn:E; [|done].
  destruct (reachable_declared_nonempty s T l Hr E) as (e & m & ->).
  by split.
Qed.

(** The entries a fresh registration holds are those of the store. *)
Lemma register_registered_properties T md s :
  Decorators.getComponentMetadata T s = Some md →
  registered_properties T (EditorComponentRegistry.register T s) =
  declared_properties T s.
Proof.
  intros Hmd. unfold Decorators.getComponentMetadata in Hmd.
  unfold registered_properties, declared_properties, EditorComponentRegistry.get.
  rewrite register_registrations, Hmd, JsMap_get_set_eq. simpl.
  unfold EditorComponentRegistry.register, Decorators.getAllPropertyMetadata,
    Decorators.getComponentMetadata, deref, JsMap.entries.
  rewrite Hmd. destruct (propertyMetadataMap s !! T) as [l|]; simpl; [done |].
  by rewrite lookup_insert_eq.
Qed.

Lemma utils_getPropertyMetadata_registered T name s :
  ComponentUtils.getPropertyMetadata T name s =
  JsMap.get name (registered_properties T s).
Proof.
  unfold ComponentUtils.getPropertyMetadata, registered_properties,
    ComponentUtils.getComponentRegistration, JsMap.entries.
  by destruct (EditorComponentRegistry.get T s).
Qed.

(** [@property] never moves the map of a type to another object. *)
Lemma property_keeps_map options T key U l s :
  propertyMetadataMap s !! U = Some l →
  propertyMetadataMap (Decorators.property options T key s) !! U = Some l.
Proof.
  intros HU. unfold Decorators.property.
  destruct (propertyMetadataMap s !! T) as [l0|] eqn:E; simpl.
  - by rewrite E.
  - rewrite lookup_insert_eq. simpl. rewrite lookup_insert_ne; [done |].
    intros ->. by rewrite E in HU.
Qed.

(** X5.  In a reachable state where [T] has a descriptor and at least one
    declared property, a property declared after [register T] is seen
    through the registration: the helper [getPropertyMetadata] returns it,
    and the registration's property map stays equal to the store's map. *)
Theorem registration_shares_declared_property_map (T : ComponentType)
    (md : ComponentMetadata.t) (options : PropertyMetadata.t) (key : string)
    (s : State) :
  reachable s →
  Decorators.getComponentMetadata T s = Some md →
  declared_properties T s ≠ [] →
  let s' :=
    Decorators.property options T key (EditorComponentRegistry.register T s) in
  ComponentUtils.getPropertyMetadata T key s' = Some options ∧
  registered_properties T s' = declared_properties T s' ∧
  registered_properties T s' = JsMap.set key options (declared_properties T s).
Proof.
  intros Hr Hmd Hdecl s'.
  destruct (propertyMetadataMap s !! T) as [l|] eqn:Hl;
    [|by apply declared_properties_nil in Hl].
  assert (reachable (EditorComponentRegistry.register T s)) as Hr'
    by (by constructor).
  assert (registered_properties T s' = declared_properties T s') as Hsame.
  { unfold registered_properties, declared_properties, EditorComponentRegistry.get.
    subst s'.
    destruct (property_frame options T key (EditorComponentRegistry.register T s))
      as (_ & _ & ->).
    rewrite register_registrations.
    unfold Decorators.getComponentMetadata in Hmd.
    rewrite Hmd, JsMap_get_set_eq. simpl.
    unfold Decorators.getAllPropertyMetadata at 1. rewrite Hl. simpl.
    rewrite (property_keeps_map options T key T l); [done |].
    destruct (register_frame T s) as (_ & -> & _). done. }
  assert (declared_properties T s' = JsMap.set key options (declared_properties T s))
    as Hset.
  { subst s'. rewrite property_declared_properties by done. f_equal.
    unfold declared_properties.
    destruct (register_frame T s) as (_ & -> & _). rewrite Hl.
    unfold deref, EditorComponentRegistry.register,
      Decorators.getAllPropertyMetadata. by rewrite Hl, Hmd. }
  split_and!; [| done | by rewrite Hsame].
  rewrite utils_getPropertyMetadata_registered, Hsame, Hset.
  apply JsMap_get_set_eq.
Qed.

Lemma registration_shares_declared_property_map_witness :
  let s := Decorators.componentDecorator
             (component_options "Health" (Some "Gameplay") (Some 2%Z)) 1
             (Decorators.property
                (property_options TRange (Some "Stats") (Some 1%Z)) 1 "hp"
                initial) in
  let late := property_options TBoolean None None in
  reachable s ∧
  is_Some (Decorators.getComponentMetadata 1 s) ∧
  declared_properties 1 s ≠ [] ∧
  ComponentUtils.getPropertyMetadata 1 "invincible"
    (Decorators.property late 1 "invincible" (EditorComponentRegistry.register 1 s))
  = Some late.
Proof.
  intros s late.
  assert (reachable s) as Hr by (repeat constructor).
  assert (declared_properties 1 s ≠ []) as Hdecl by discriminate.
  split_and!; [exact Hr | by eexists | exact Hdecl |].
  apply (registration_shares_declared_property_map 1 _ late "invincible" s Hr eq_refl Hdecl).
Defined.

(** X6.  In a reachable state where [T] has a descriptor and no declared
    property, the registration [register T] makes holds an empty map of its
    own: a property declared afterwards is in the store but is not seen
    through the registration, until [T] is registered again. *)
Theorem registration_without_properties_is_detached (T : ComponentType)
    (md : ComponentMetadata.t) (options : PropertyMetadata.t) (key : string)
    (s : State) :
  reachable s →
  Decorators.getComponentMetadata T s = Some md →
  declared_properties T s = [] →
  let s' :=
    Decorators.property options T key (EditorComponentRegistry.register T s) in
  Decorators.getPropertyMetadata T key s' = Some options ∧
  ComponentUtils.getPropertyMetadata T key s' = None ∧
  registered_properties T s' = [] ∧
  ComponentUtils.getPropertyMetadata T key (EditorComponentRegistry.register T s')
  = Some options.
Proof.
  intros Hr Hmd Hdecl s'.
  apply declared_properties_nil in Hdecl; [|done].
  assert (reachable (EditorComponentRegistry.register T s)) as Hr'
    by (by constructor).
  assert (Decorators.getPropertyMetadata T key s' = Some options) as Hstore.
  { subst s'. rewrite getPropertyMetadata_declared,
      property_declared_properties by done. apply JsMap_get_set_eq. }
  assert (ComponentUtils.getPropertyMetadata T key s' = None) as Hnone
    by (by eapply property_after_register_separate).
  assert (Decorators.getComponentMetadata T s' = Some md) as Hmd'.
  { subst s'. unfold Decorators.getComponentMetadata in *.
    destruct (property_frame options T key (EditorComponentRegistry.register T s))
      as (-> & _ & _).
    by destruct (register_frame T s) as (-> & _ & _). }
  split_and!; [done | done | |].
  - unfold registered_properties, EditorComponentRegistry.get. subst s'.
    destruct (property_frame options T key (EditorComponentRegistry.register T s))
      as (_ & _ & ->).
    rewrite register_registrations.
    unfold Decorators.getComponentMetadata in Hmd.
    rewrite Hmd, JsMap_get_set_eq. simpl.
    unfold deref, Decorators.property, EditorComponentRegistry.register,
      Decorators.getAllPropertyMetadata, Decorators.getComponentMetadata.
    repeat (first [rewrite Hdecl | rewrite Hmd]; simpl).
    rewrite lookup_insert_eq. simpl.
    set (l1 := fresh (dom (heap s))).
    set (l2 := fresh (dom (<[l1 := []]> (heap s)))).
    assert (l2 ≠ l1) as Hne.
    { intros Heq. apply (is_fresh (dom (<[l1 := []]> (heap s)))).
      fold l2. rewrite Heq. apply elem_of_dom. by rewrite lookup_insert_eq. }
    by rewrite lookup_alter_ne, lookup_insert_ne, lookup_insert_eq.
  - rewrite utils_getPropertyMetadata_registered.
    rewrite (register_registered_properties T md s') by done.
    by rewrite <-getPropertyMetadata_declared.
Qed.

Lemma registration_without_properties_is_detached_witness :
  let s := Decorators.componentDecorator (component_options "Camera" None None) 1
             initial in
  let late := property_options TNumber None None in
  let s' := Decorators.property late 1 "fov" (EditorComponentRegistry.register 1 s) in
  reachable s ∧
  is_Some (Decorators.getComponentMetadata 1 s) ∧
  declared_properties 1 s = [] ∧
  Decorators.getPropertyMetadata 1 "fov" s' = Some late ∧
  ComponentUtils.getPropertyMetadata 1 "fov" s' = None.
Proof.
  intros s late s'.
  assert (reachable s) as Hr by (repeat constructor).
  destruct (registration_without_properties_is_detached 1 _ late "fov" s Hr
              eq_refl eq_refl) as (Hstore & Hnone & _).
  split_and!; [exact Hr | by eexists | reflexivity | exact Hstore | exact Hnone].
Defined.

(** ** The registry as a map keyed by type *)

(** X7.  In every reachable state the registry holds at most one
    registration per type: the types [getAll] lists are pairwise distinct,
    every listed registration is the one [get] returns for its own type,
    its type has a descriptor in the metadata store, and [has T] is true
    exactly when [getAll] lists a registration of type [T]. *)
Theorem registry_is_keyed_by_type (s : State) :
  reachable s →
  NoDup (map ComponentRegistration.componentType (EditorComponentRegistry.getAll s)) ∧
  (∀ reg,
     reg ∈ EditorComponentRegistry.getAll s →
     EditorComponentRegistry.get (ComponentRegistration.componentType reg) s
       = Some reg ∧
     Decorators.hasComponentMetadata (ComponentRegistration.componentType reg) s
       = true) ∧
  (∀ T,
     EditorComponentRegistry.has T s = true ↔
     T ∈ map ComponentRegistration.componentType (EditorComponentRegistry.getAll s)) ∧
  (∀ T,
     EditorComponentRegistry.has T s = true ↔
     is_Some (EditorComponentRegistry.get T s)).
Proof.
  intros Hr. pose proof (reachable_inv s Hr) as [I1 _ I3 I4].
  split_and!.
  - by rewrite getAll_types.
  - intros reg Hin. split; [by apply getAll_get |].
    unfold Decorators.hasComponentMetadata. apply bool_decide_eq_true.
    unfold EditorComponentRegistry.getAll, JsMap.values in Hin.
    apply list_elem_of_fmap in Hin as ([k r] & -> & Hin). simpl.
    rewrite (I3 _ _ Hin). by eapply I1.
  - intros T. by rewrite getAll_types, has_true_iff_key.
  - intros T. unfold EditorComponentRegistry.has, EditorComponentRegistry.get,
      JsMap.has.
    destruct (JsMap.get T (registrations s)); split; try done;
      first [by eexists | by intros [? ?]].
Qed.

Lemma registry_is_keyed_by_type_witness :
  reachable scenario_gameplay ∧
  NoDup (map ComponentRegistration.componentType
           (EditorComponentRegistry.getAll scenario_gameplay)).
Proof.
  pose proof reachable_scenario_gameplay as Hr.
  split; [exact Hr |]. apply (registry_is_keyed_by_type scenario_gameplay Hr).
Defined.

(** X8.  In a reachable state, registering again a type that is already
    registered replaces its registration in place: [getAll] lists the same
    types in the same order, the new registration carries the descriptor
    and the property entries the store holds now, and the registrations of
    the other types are untouched. *)
Theorem reregistration_replaces_in_place (T : ComponentType)
    (md : ComponentMetadata.t) (s : State) :
  reachable s →
  EditorComponentRegistry.has T s = true →
  Decorators.getComponentMetadata T s = Some md →
  let s' := EditorComponentRegistry.register T s in
  map ComponentRegistration.componentType (EditorComponentRegistry.getAll s') =
    map ComponentRegistration.componentType (EditorComponentRegistry.getAll s) ∧
  length (EditorComponentRegistry.getAll s') =
    length (EditorComponentRegistry.getAll s) ∧
  (∃ reg,
     EditorComponentRegistry.get T s' = Some reg ∧
     ComponentRegistration.metadata reg = md) ∧
  registered_properties T s' = declared_properties T s ∧
  (∀ U, U ≠ T →
     EditorComponentRegistry.get U s' = EditorComponentRegistry.get U s).
Proof.
  intros Hr Hhas Hmd s'.
  assert (reachable s') as Hr' by (by constructor).
  assert (map ComponentRegistration.componentType (EditorComponentRegistry.getAll s')
          = map ComponentRegistration.componentType (EditorComponentRegistry.getAll s))
    as Htypes.
  { rewrite !getAll_types by done. subst s'. rewrite register_registrations.
    unfold Decorators.getComponentMetadata in Hmd. rewrite Hmd.
    rewrite JsMap_keys_set, decide_True; [done |]. by apply has_true_iff_key. }
  split_and!.
  - done.
  - by rewrite <-(length_map ComponentRegistration.componentType), Htypes,
      length_map.
  - unfold EditorComponentRegistry.get. subst s'.
    rewrite register_registrations.
    unfold Decorators.getComponentMetadata in Hmd. rewrite Hmd.
    rewrite JsMap_get_set_eq. by eexists.
  - by eapply register_registered_properties.
  - intros U HU. unfold EditorComponentRegistry.get. subst s'.
    rewrite register_registrations.
    unfold Decorators.getComponentMetadata in Hmd. rewrite Hmd.
    by apply JsMap_get_set_ne.
Qed.

Lemma reregistration_replaces_in_place_witness :
  let s := Decorators.componentDecorator
             (component_options "Health" (Some "Combat") None) 1
             scenario_gameplay in
  let s' := EditorComponentRegistry.register 1 s in
  reachable s ∧
  EditorComponentRegistry.has 1 s = true ∧
  is_Some (Decorators.getComponentMetadata 1 s) ∧
  map ComponentRegistration.componentType (EditorComponentRegistry.getAll s')
    = [1%positive; 2%positive] ∧
  ComponentUtils.getComponentCategory 1 s = "Gameplay" ∧
  ComponentUtils.getComponentCategory 1 s' = "Combat".
Proof.
  intros s s'.
  assert (reachable s) as Hr by (constructor; apply reachable_scenario_gameplay).
  destruct (reregistration_replaces_in_place 1 _ s Hr eq_refl eq_refl)
    as (Htypes & _).
  split_and!; [exact Hr | reflexivity | by eexists | | reflexivity | reflexivity].
  fold s' in Htypes. rewrite Htypes. reflexivity.
Defined.

(** X9.  A registration is a snapshot: declaring [T] again changes the
    descriptor in the metadata store but not the registry, so [get],
    [getAll], [getAddable], [canAddComponent] and [canRemoveComponent]
    answer as before until [T] is registered again, after which they
    follow the new declaration. *)
Theorem redeclaration_reaches_registry_on_register (options : ComponentMetadata.t)
    (T : ComponentType) (s : State) :
  let s1 := Decorators.componentDecorator options T s in
  let s2 := EditorComponentRegistry.register T s1 in
  (∀ U, EditorComponentRegistry.get U s1 = EditorComponentRegistry.get U s) ∧
  EditorComponentRegistry.getAll s1 = EditorComponentRegistry.getAll s ∧
  EditorComponentRegistry.getAddable s1 = EditorComponentRegistry.getAddable s ∧
  (∀ U,
     ComponentUtils.canAddComponent U s1 = ComponentUtils.canAddComponent U s ∧
     ComponentUtils.canRemoveComponent U s1 = ComponentUtils.canRemoveComponent U s) ∧
  ComponentUtils.canAddComponent T s2 =
    negb (bool_decide (ComponentMetadata.addable options = Some false)) ∧
  ComponentUtils.canRemoveComponent T s2 =
    negb (bool_decide (ComponentMetadata.removable options = Some false)) ∧
  ComponentUtils.getComponentCategory T s2 =
    (if decide (ComponentMetadata.category options = None ∨
                ComponentMetadata.category options = Some "")
     then "Uncategorized 未分类"
     else default "" (ComponentMetadata.category options)).
Proof.
  intros s1 s2.
  destruct (get_declared_registered options T s) as (reg & Hget & _ & Hrem & Hadd).
  fold s1 s2 in Hget.
  assert (ComponentMetadata.category (ComponentRegistration.metadata reg)
          = ComponentMetadata.category options) as Hcat.
  { unfold EditorComponentRegistry.get in Hget. subst s2 s1.
    rewrite register_registrations in Hget. simpl in Hget.
    rewrite lookup_insert_eq, JsMap_get_set_eq in Hget. by injection Hget as <-. }
  split_and!; try done.
  - unfold ComponentUtils.canAddComponent, ComponentUtils.getComponentRegistration.
    rewrite Hget. simpl. rewrite Hadd. simpl.
    by destruct (ComponentMetadata.addable options) as [[]|].
  - unfold ComponentUtils.canRemoveComponent, ComponentUtils.getComponentRegistration.
    rewrite Hget. simpl. rewrite Hrem. simpl.
    by destruct (ComponentMetadata.removable options) as [[]|].
  - unfold ComponentUtils.getComponentCategory, ComponentUtils.getComponentRegistration.
    rewrite Hget. simpl. rewrite Hcat. unfold string_or.
    destruct (ComponentMetadata.category options) as [c|]; simpl.
    + destruct (decide (c = "")) as [->|Hc].
      * rewrite decide_True; [done | by right].
      * rewrite decide_False; [done |]. intros [?|[= ?]]; done.
    + done.
Qed.

(** ** Plugin installation and auto-discovery, continued *)

Lemma register_has T U s :
  EditorComponentRegistry.has U (EditorComponentRegistry.register T s) =
  EditorComponentRegistry.has U s
  || (bool_decide (T = U) && Decorators.hasComponentMetadata U s).
Proof.
  unfold EditorComponentRegistry.has, JsMap.has, Decorators.hasComponentMetadata.
  rewrite register_registrations.
  destruct (decide (T = U)) as [->|Hne].
  - rewrite bool_decide_eq_true_2 by done. simpl.
    destruct (componentMetadataMap s !! U) as [md|] eqn:E.
    + rewrite JsMap_get_set_eq, bool_decide_eq_true_2 by (by eexists).
      by rewrite orb_true_r.
    + rewrite bool_decide_eq_false_2 by (by intros [? ?]).
      by rewrite orb_false_r.
  - rewrite (bool_decide_eq_false_2 (T = U)) by done. simpl.
    rewrite orb_false_r.
    destruct (componentMetadataMap s !! T); [by rewrite JsMap_get_set_ne | done].
Qed.

Lemma install_frame componentTypes s :
  let s' := install componentTypes s in
  componentMetadataMap s' = componentMetadataMap s ∧
  propertyMetadataMap s' = propertyMetadataMap s ∧
  globalComponentRegistry s' = globalComponentRegistry s.
Proof.
  revert s. induction componentTypes as [|T l IH]; intros s; [done |].
  simpl. destruct (IH (EditorComponentRegistry.register T s)) as (-> & -> & ->).
  apply register_frame.
Qed.

Lemma install_has componentTypes U s :
  EditorComponentRegistry.has U (install componentTypes s) =
  EditorComponentRegistry.has U s
  || (bool_decide (U ∈ componentTypes) && Decorators.hasComponentMetadata U s).
Proof.
  revert s. induction componentTypes as [|T l IH]; intros s.
  - change (install [] s) with s.
    rewrite (bool_decide_eq_false_2 (U ∈ [])) by apply not_elem_of_nil.
    by rewrite orb_false_r.
  - change (install (T :: l) s) with (install l (EditorComponentRegistry.register T s)).
    rewrite IH, register_has.
    assert (Decorators.hasComponentMetadata U (EditorComponentRegistry.register T s)
            = Decorators.hasComponentMetadata U s) as ->.
    { unfold Decorators.hasComponentMetadata.
      by destruct (register_frame T s) as (-> & _). }
    destruct (decide (T = U)) as [->|Hne].
    + rewrite (bool_decide_eq_true_2 (U = U)) by done.
      rewrite (bool_decide_eq_true_2 (U ∈ U :: l)) by (by left).
      simpl. by destruct (EditorComponentRegistry.has U s),
        (Decorators.hasComponentMetadata U s), (bool_decide (U ∈ l)).
    + rewrite (bool_decide_eq_false_2 (T = U)) by done. simpl.
      rewrite orb_false_r.
      assert (bool_decide (U ∈ T :: l) = bool_decide (U ∈ l)) as ->; [|done].
      apply bool_decide_ext. rewrite elem_of_cons.
      split; [intros [?|?]; [congruence | done] | by right].
Qed.

(** Installing distinct unregistered types that have descriptors appends
    them to the registry in the order given. *)
Lemma install_keys componentTypes s :
  NoDup componentTypes →
  (∀ T, T ∈ componentTypes → is_Some (componentMetadataMap s !! T)) →
  (∀ T, T ∈ componentTypes → T ∉ (registrations s).*1) →
  (registrations (install componentTypes s)).*1 =
  (registrations s).*1 ++ componentTypes.
Proof.
  revert s. induction componentTypes as [|T l IH]; intros s Hnd Hmd Hnew.
  - simpl. by rewrite app_nil_r.
  - apply NoDup_cons in Hnd as [HT Hnd].
    change (install (T :: l) s) with (install l (EditorComponentRegistry.register T s)).
    assert ((registrations (EditorComponentRegistry.register T s)).*1 =
            (registrations s).*1 ++ [T]) as Hkeys.
    { rewrite register_registrations.
      destruct (Hmd T) as [md ->]; [by left |].
      rewrite JsMap_keys_set, decide_False; [done |]. apply Hnew. by left. }
    rewrite IH, Hkeys; [by rewrite <-app_assoc | done | |].
    + intros U HU. destruct (register_frame T s) as (-> & _).
      apply Hmd. by right.
    + intros U HU. rewrite Hkeys, elem_of_app, list_elem_of_singleton.
      intros [Hin| ->]; [|done]. by apply (Hnew U); [right |].
Qed.

(** X10.  [install] registers exactly the types of the plugin that have a
    descriptor: afterwards [has U] is true when it was true before or when
    [U] is one of the plugin's types and has component metadata, and false
    otherwise; the metadata store is not changed. *)
Theorem install_registers_described_types (componentTypes : list ComponentType)
    (U : ComponentType) (s : State) :
  let s' := install componentTypes s in
  EditorComponentRegistry.has U s' =
    (EditorComponentRegistry.has U s
     || (bool_decide (U ∈ componentTypes) && Decorators.hasComponentMetadata U s)) ∧
  (∀ V, Decorators.getComponentMetadata V s' = Decorators.getComponentMetadata V s) ∧
  Decorators.getAllRegisteredComponentTypes s' =
    Decorators.getAllRegisteredComponentTypes s ∧
  (length (EditorComponentRegistry.getAll s)
   ≤ length (EditorComponentRegistry.getAll s'))%nat.
Proof.
  intros s'. subst s'. destruct (install_frame componentTypes s) as (E1 & E2 & E3).
  split_and!.
  - apply install_has.
  - intros V. unfold Decorators.getComponentMetadata. by rewrite E1.
  - done.
  - clear E1 E2 E3. revert s.
    induction componentTypes as [|T l IH]; intros s; [done |].
    change (install (T :: l) s) with (install l (EditorComponentRegistry.register T s)).
    etrans; [|apply IH].
    unfold EditorComponentRegistry.getAll, JsMap.values.
    rewrite !length_fmap, <-!(length_fmap fst), register_registrations.
    destruct (componentMetadataMap s !! T); [|done].
    rewrite JsMap_keys_set. case_decide; [done |]. rewrite length_app. lia.
Qed.

(** X11.  In a reachable state [discoverAndRegisterComponents] registers
    every declared type and no other: afterwards [has T] is true exactly
    when it was true before or [T] is a declared type.  Run on a cleared
    registry it makes [getAll] list the declared types in declaration
    order. *)
Theorem discovery_registers_declared_types (s : State) :
  reachable s →
  (∀ T,
     EditorComponentRegistry.has T (discoverAndRegisterComponents s) =
     (EditorComponentRegistry.has T s
      || bool_decide (T ∈ Decorators.getAllRegisteredComponentTypes s))) ∧
  map ComponentRegistration.componentType
    (EditorComponentRegistry.getAll
       (discoverAndRegisterComponents (EditorComponentRegistry.clear s)))
  = Decorators.getAllRegisteredComponentTypes s.
Proof.
  intros Hr. pose proof (reachable_inv s Hr) as [_ I2 _ _]. split.
  - intros T. unfold discoverAndRegisterComponents. fold (install
      (Decorators.getAllRegisteredComponentTypes s) s).
    rewrite install_has. f_equal.
    destruct (decide (T ∈ Decorators.getAllRegisteredComponentTypes s)) as [Hin|Hin].
    + rewrite bool_decide_eq_true_2 by done. simpl.
      unfold Decorators.hasComponentMetadata. apply bool_decide_eq_true.
      by apply I2.
    + by rewrite bool_decide_eq_false_2.
  - assert (reachable (EditorComponentRegistry.clear s)) as Hrc by (by constructor).
    unfold discoverAndRegisterComponents.
    fold (install
      (Decorators.getAllRegisteredComponentTypes (EditorComponentRegistry.clear s))
      (EditorComponentRegistry.clear s)).
    rewrite getAll_types by (by apply reachable_install).
    rewrite install_keys; [done | | |].
    + by apply reachable_declared_NoDup.
    + apply I2.
    + intros T _. apply not_elem_of_nil.
Qed.

Lemma discovery_registers_declared_types_witness :
  reachable scenario_audio ∧
  map ComponentRegistration.componentType
    (EditorComponentRegistry.getAll
       (discoverAndRegisterComponents (EditorComponentRegistry.clear scenario_audio)))
  = [1%positive; 2%positive; 3%positive].
Proof.
  assert (reachable scenario_audio) as Hr by (repeat constructor).
  split; [exact Hr |].
  destruct (discovery_registers_declared_types scenario_audio Hr) as [_ Horder].
  rewrite Horder. reflexivity.
Defined.

(** X12.  After [clearAllMetadata] the auto-discovery finds nothing to
    register although the descriptors are still in the metadata store:
    [discoverAndRegisterComponents] leaves the registry as it is, while an
    explicit [register T] of a type with a descriptor still registers it. *)
Theorem discovery_is_blind_after_clearAllMetadata (T : ComponentType)
    (md : ComponentMetadata.t) (s : State) :
  Decorators.getComponentMetadata T s = Some md →
  let s0 := Decorators.clearAllMetadata s in
  EditorComponentRegistry.getAll (discoverAndRegisterComponents s0) =
    EditorComponentRegistry.getAll s ∧
  (∀ U, EditorComponentRegistry.has U (discoverAndRegisterComponents s0) =
        EditorComponentRegistry.has U s) ∧
  Decorators.getComponentMetadata T (discoverAndRegisterComponents s0) = Some md ∧
  EditorComponentRegistry.has T (EditorComponentRegistry.register T s0) = true.
Proof.
  intros Hmd s0. split_and!; try done.
  apply register_has_self. by exists md.
Qed.

Lemma discovery_is_blind_after_clearAllMetadata_witness :
  let s0 := Decorators.clearAllMetadata
              (Decorators.componentDecorator
                 (component_options "Camera" None None) 1 initial) in
  is_Some (Decorators.getComponentMetadata 1 s0) ∧
  EditorComponentRegistry.getAll (discoverAndRegisterComponents s0) = [] ∧
  EditorComponentRegistry.has 1 (EditorComponentRegistry.register 1 s0) = true.
Proof.
  intros s0.
  destruct (discovery_is_blind_after_clearAllMetadata 1 _
              (Decorators.componentDecorator
                 (component_options "Camera" None None) 1 initial) eq_refl)
    as (Hall & _ & _ & Hreg).
  split_and!; [by eexists | exact Hall | exact Hreg].
Defined.

(** ** The grouping helpers, for every category *)

Lemma string_or_nonempty (x : option string) (d : string) :
  d ≠ "" → string_or x d ≠ "".
Proof.
  intros Hd. unfold string_or. destruct x as [c|]; [|done].
  by destruct (decide (c = "")).
Qed.

Lemma string_or_Some (c d : string) : c ≠ "" → string_or (Some c) d = c.
Proof. intros Hc. unfold string_or. by rewrite decide_False. Qed.

(** X13.  [getComponentsByCategory] throws a TypeError when the group key
    of some registration names a member of [Object.prototype].  Otherwise
    it returns, and partitions the registrations: every registration is in
    the group keyed by its category, or by "Uncategorized 未分类" when the
    category is absent or empty; a group holds exactly the registrations of
    its key (each as often as [getAll] lists it), so no group is empty, and
    the empty string is never a key. *)
Theorem components_are_partitioned_by_category (s : State) :
  (Exists (λ reg, inherited (registration_group reg) = true)
     (EditorComponentRegistry.getAll s) →
   ComponentUtils.getComponentsByCategory s = TypeError) ∧
  (no_prototype_key registration_group (EditorComponentRegistry.getAll s) →
   ∃ grouped,
     ComponentUtils.getComponentsByCategory s = Normal grouped ∧
     (∀ reg,
        reg ∈ EditorComponentRegistry.getAll s →
        ∃ group, grouped !! registration_group reg = Some group ∧ reg ∈ group) ∧
     (∀ reg category,
        reg ∈ EditorComponentRegistry.getAll s →
        ComponentMetadata.category (ComponentRegistration.metadata reg)
        = Some category →
        category ≠ "" →
        ∃ group, grouped !! category = Some group ∧ reg ∈ group) ∧
     (∀ category group,
        grouped !! category = Some group →
        group ≠ [] ∧ category ≠ "" ∧
        group ≡ₚ filter (λ reg, registration_group reg = category)
                   (EditorComponentRegistry.getAll s)) ∧
     (∀ category,
        grouped !! category = None ↔
        ∀ reg, reg ∈ EditorComponentRegistry.getAll s →
               registration_group reg ≠ category)).
Proof.
  split; [apply getComponentsByCategory_throws |]. intros Hplain.
  destruct (getComponentsByCategory_returns s Hplain) as [grouped Hret].
  exists grouped. split; [done |].
  pose proof (getComponentsByCategory_lookup s grouped Hret) as Hlookup.
  assert (∀ reg,
    reg ∈ EditorComponentRegistry.getAll s →
    ∃ group, grouped !! registration_group reg = Some group ∧ reg ∈ group)
    as Hgroup.
  { intros reg Hin. rewrite Hlookup.
    destruct (filter _ _) as [|r l] eqn:E.
    - assert (reg ∈ filter (λ r, registration_group r = registration_group reg)
                      (EditorComponentRegistry.getAll s)) as Hf
        by (by apply list_elem_of_filter).
      rewrite E in Hf. by apply elem_of_nil in Hf.
    - eexists. split; [done |]. apply elem_of_sort. rewrite <-E.
      by apply list_elem_of_filter. }
  split_and!.
  - done.
  - intros reg category Hin Hcat Hne.
    destruct (Hgroup reg Hin) as (group & Hg & Hmem).
    unfold registration_group in Hg.
    rewrite Hcat, string_or_Some in Hg by done. by exists group.
  - intros category group. rewrite Hlookup.
    destruct (filter _ _) as [|r l] eqn:E; [done |].
    pose proof (sort_Permutation ComponentUtils.registration_order (r :: l)) as Hp.
    remember (JsArray.sort _ (r :: l)) as out eqn:Hout. clear Hout.
    intros [= <-]. split_and!.
    + intros Hnil. rewrite Hnil in Hp. by apply Permutation_nil_cons in Hp.
    + assert (r ∈ filter (λ reg, registration_group reg = category)
                     (EditorComponentRegistry.getAll s)) as Hr
        by (rewrite E; by left).
      apply list_elem_of_filter in Hr as [<- _].
      by apply string_or_nonempty.
    + done.
  - intros category. rewrite Hlookup.
    destruct (filter _ _) as [|r l] eqn:E.
    + split; [|done]. intros _ reg Hin Heq.
      assert (reg ∈ filter (λ reg, registration_group reg = category)
                      (EditorComponentRegistry.getAll s)) as Hf
        by (by apply list_elem_of_filter).
      rewrite E in Hf. by apply elem_of_nil in Hf.
    + split; [done |]. intros Hnone.
      assert (r ∈ filter (λ reg, registration_group reg = category)
                     (EditorComponentRegistry.getAll s)) as Hr
        by (rewrite E; by left).
      apply list_elem_of_filter in Hr as [Heq Hin]. by destruct (Hnone r Hin).
Qed.

Lemma components_are_partitioned_by_category_witness :
  no_prototype_key registration_group
    (EditorComponentRegistry.getAll scenario_audio) ∧
  (∃ reg grouped group,
     reg ∈ EditorComponentRegistry.getAll scenario_audio ∧
     ComponentMetadata.category (ComponentRegistration.metadata reg) = Some "Audio" ∧
     ComponentUtils.getComponentsByCategory scenario_audio = Normal grouped ∧
     grouped !! "Audio" = Some group ∧
     reg ∈ group) ∧
  Exists (λ reg, inherited (registration_group reg) = true)
    (EditorComponentRegistry.getAll scenario_constructor) ∧
  ComponentUtils.getComponentsByCategory scenario_constructor = TypeError.
Proof.
  assert (no_prototype_key registration_group
            (EditorComponentRegistry.getAll scenario_audio)) as Hplain
    by (repeat constructor).
  assert (Exists (λ reg, inherited (registration_group reg) = true)
            (EditorComponentRegistry.getAll scenario_constructor)) as Hex
    by (by left).
  split_and!; [exact Hplain | | exact Hex |].
  - destruct (components_are_partitioned_by_category scenario_audio)
      as (_ & Hreturns).
    destruct (Hreturns Hplain) as (grouped & Hret & _ & Hcat & _).
    destruct (Hcat (ComponentRegistration.mk 1
                      (ComponentMetadata.mk "Mixer" None None (Some "Audio")
                         (Some true) (Some true) None) 1) "Audio")
      as (group & Hlookup & Hmem); [left | reflexivity | discriminate |].
    eexists _, grouped, group.
    split_and!; [left | reflexivity | exact Hret | exact Hlookup | exact Hmem].
  - destruct (components_are_partitioned_by_category scenario_constructor)
      as (Hthrows & _).
    exact (Hthrows Hex).
Defined.

(** X14.  A registration whose category is the empty string is treated as
    uncategorized by the helpers and the statistics, but not by the exact
    match of the registry: [getByCategory ""] returns it, [getStatistics]
    counts it under no category, and [getComponentsByCategory], when no
    group key names a member of [Object.prototype] so that it returns, puts
    it under "Uncategorized 未分类" and has no group for the empty
    string. *)
Theorem empty_category_counts_as_uncategorized (s : State)
    (reg : ComponentRegistration.t) :
  reg ∈ EditorComponentRegistry.getAll s →
  ComponentMetadata.category (ComponentRegistration.metadata reg) = Some "" →
  reg ∈ EditorComponentRegistry.getByCategory "" s ∧
  EditorComponentRegistry.categorizedComponents
    (EditorComponentRegistry.getStatistics s) !! "" = None ∧
  registration_group reg = "Uncategorized 未分类" ∧
  (no_prototype_key registration_group (EditorComponentRegistry.getAll s) →
   ∃ grouped,
     ComponentUtils.getComponentsByCategory s = Normal grouped ∧
     (∃ group, grouped !! "Uncategorized 未分类" = Some group ∧ reg ∈ group) ∧
     grouped !! "" = None).
Proof.
  intros Hin Hcat.
  assert (registration_group reg = "Uncategorized 未分类") as Hlabel
    by (unfold registration_group; by rewrite Hcat).
  split_and!.
  - unfold EditorComponentRegistry.getByCategory. by apply list_elem_of_filter.
  - by rewrite getStatistics_tally.
  - done.
  - intros Hplain.
    destruct (getComponentsByCategory_returns s Hplain) as [grouped Hret].
    exists grouped. split; [done |].
    pose proof (getComponentsByCategory_lookup s grouped Hret) as Hlookup.
    split.
    + rewrite Hlookup.
      assert (reg ∈ filter (λ r, registration_group r = "Uncategorized 未分类")
                      (EditorComponentRegistry.getAll s)) as Hf
        by (by apply list_elem_of_filter).
      destruct (filter _ _) as [|r l] eqn:E; [by apply elem_of_nil in Hf |].
      eexists. split; [done |]. by apply elem_of_sort.
    + rewrite Hlookup.
      destruct (filter _ _) as [|r l] eqn:E; [done |].
      assert (r ∈ filter (λ reg, registration_group reg = "")
                     (EditorComponentRegistry.getAll s)) as Hr
        by (rewrite E; by left).
      apply list_elem_of_filter in Hr as [Heq _].
      by apply string_or_nonempty in Heq.
Qed.

Lemma empty_category_counts_as_uncategorized_witness :
  ∃ reg grouped,
    reg ∈ EditorComponentRegistry.getAll scenario_empty_category ∧
    ComponentMetadata.category (ComponentRegistration.metadata reg) = Some "" ∧
    reg ∈ EditorComponentRegistry.getByCategory "" scenario_empty_category ∧
    ComponentUtils.getComponentsByCategory scenario_empty_category
      = Normal grouped ∧
    grouped !! "" = None.
Proof.
  eexists.
  edestruct (empty_category_counts_as_uncategorized scenario_empty_category)
    as (Hexact & _ & _ & Hgroups); [left | reflexivity |].
  destruct Hgroups as (grouped & Hret & _ & Hnone); [repeat constructor |].
  exists grouped.
  split_and!; [left | reflexivity | exact Hexact | exact Hret | exact Hnone].
Defined.

(** X15.  [getComponentCategory] and [getComponentIcon] never return the
    empty string: for an unregistered type they return
    "Uncategorized 未分类" and the box glyph.  For a registered type
    [getComponentCategory] returns the group key of its registration: when
    that key names a member of [Object.prototype],
    [getComponentsByCategory] throws, and when no group key does, it
    returns and lists the registration in the group under that key. *)
Theorem component_category_is_its_group_key (s : State) (T : ComponentType) :
  ComponentUtils.getComponentCategory T s ≠ "" ∧
  ComponentUtils.getComponentIcon T s ≠ "" ∧
  (EditorComponentRegistry.get T s = None →
   ComponentUtils.getComponentCategory T s = "Uncategorized 未分类" ∧
   ComponentUtils.getComponentIcon T s = "📦") ∧
  (∀ reg,
     EditorComponentRegistry.get T s = Some reg →
     ComponentUtils.getComponentCategory T s = registration_group reg ∧
     (inherited (ComponentUtils.getComponentCategory T s) = true →
      ComponentUtils.getComponentsByCategory s = TypeError) ∧
     (no_prototype_key registration_group (EditorComponentRegistry.getAll s) →
      ∃ grouped group,
        ComponentUtils.getComponentsByCategory s = Normal grouped ∧
        grouped !! ComponentUtils.getComponentCategory T s = Some group ∧
        reg ∈ group)).
Proof.
  unfold ComponentUtils.getComponentCategory, ComponentUtils.getComponentIcon,
    ComponentUtils.getComponentRegistration.
  split_and!.
  - by apply string_or_nonempty.
  - by apply string_or_nonempty.
  - by intros ->.
  - intros reg Hget. rewrite Hget. simpl.
    assert (reg ∈ EditorComponentRegistry.getAll s) as Hin
      by (by eapply JsMap_get_Some_values).
    fold (registration_group reg).
    split_and!.
    + done.
    + intros Hinherited. apply getComponentsByCategory_throws.
      apply Exists_exists. by exists reg.
    + intros Hplain.
      destruct (getComponentsByCategory_returns s Hplain) as [grouped Hret].
      exists grouped.
      rewrite (getComponentsByCategory_lookup s grouped Hret).
      assert (reg ∈ filter (λ r, registration_group r = registration_group reg)
                      (EditorComponentRegistry.getAll s)) as Hf
        by (by apply list_elem_of_filter).
      destruct (filter _ _) as [|r l] eqn:E; [by apply elem_of_nil in Hf |].
      eexists. split_and!; [done | done |]. by apply elem_of_sort.
Qed.

Lemma component_category_is_its_group_key_witness :
  (∃ reg grouped group,
     EditorComponentRegistry.get 1 scenario_plain = Some reg ∧
     ComponentUtils.getComponentCategory 1 scenario_plain = "Uncategorized 未分类" ∧
     ComponentUtils.getComponentsByCategory scenario_plain = Normal grouped ∧
     grouped !! "Uncategorized 未分类" = Some group ∧
     reg ∈ group) ∧
  ComponentUtils.getComponentCategory 1 scenario_constructor = "constructor" ∧
  ComponentUtils.getComponentsByCategory scenario_constructor = TypeError.
Proof.
  split; [|split; [reflexivity |]].
  - destruct (component_category_is_its_group_key scenario_plain 1)
      as (_ & _ & _ & Hgroup).
    eexists. destruct (Hgroup _ eq_refl) as (_ & _ & Hreturns).
    destruct Hreturns as (grouped & group & Hret & Hlookup & Hmem);
      [repeat constructor |].
    exists grouped, group.
    split_and!; [reflexivity | reflexivity | exact Hret | exact Hlookup | exact Hmem].
  - destruct (component_category_is_its_group_key scenario_constructor 1)
      as (_ & _ & _ & Hgroup).
    destruct (Hgroup _ eq_refl) as (_ & Hthrows & _).
    apply Hthrows. reflexivity.
Defined.

(** ** The tally of [getStatistics], for every key *)

(** X22.  What [categorizedComponents] of [getStatistics] holds under a key
    that [n] registrations carry as their category: nothing under the empty
    string, under [__proto__] and when [n] is zero; the number [n] under a
    key that names no member of [Object.prototype]; and, not a number,
    the source text of the inherited function followed by [n] characters
    [1] under the name of another member of [Object.prototype]. *)
Theorem statistics_tally_for_every_key (s : State) (category : string) :
  let tally :=
    EditorComponentRegistry.categorizedComponents
      (EditorComponentRegistry.getStatistics s) in
  let n := length (EditorComponentRegistry.getByCategory category s) in
  (category = "" ∨ category = "__proto__" ∨ n = 0 → tally !! category = None) ∧
  (category ≠ "" → inherited category = false → n ≠ 0 →
   tally !! category = Some (JsNumber n)) ∧
  (category ≠ "__proto__" → inherited category = true → n ≠ 0 →
   tally !! category = Some (JsFunctionText category n)).
Proof.
  intros tally n. subst tally. rewrite getStatistics_tally. fold n.
  unfold tally_value. split_and!.
  - intros [->| [->| ->]]; [done | done |]. by repeat case_decide.
  - intros Hempty Hplain Hn. rewrite decide_False by done.
    case_decide as Hproto; [by rewrite Hproto in Hplain |].
    rewrite Hplain. by destruct n.
  - intros Hproto Hinherited Hn.
    assert (category ≠ "") as Hempty by (by intros ->).
    rewrite !decide_False by done. rewrite Hinherited. by destruct n.
Qed.

Lemma statistics_tally_for_every_key_witness :
  EditorComponentRegistry.categorizedComponents
    (EditorComponentRegistry.getStatistics scenario_audio) !! "Audio"
    = Some (JsNumber 2) ∧
  EditorComponentRegistry.categorizedComponents
    (EditorComponentRegistry.getStatistics scenario_constructor) !! "constructor"
    = Some (JsFunctionText "constructor" 1).
Proof.
  split.
  - destruct (statistics_tally_for_every_key scenario_audio "Audio")
      as (_ & Hnumber & _).
    apply Hnumber; [discriminate | reflexivity | discriminate].
  - destruct (statistics_tally_for_every_key scenario_constructor "constructor")
      as (_ & _ & Htext).
    apply Htext; [discriminate | reflexivity | discriminate].
Defined.

(** ** [getRegistryStatistics] *)

Lemma getRegistryStatistics_fold regs (n : nat) (grouped : gmap string (list string)) :
  for_of ComponentUtils.getRegistryStatistics_step regs (n, grouped) =
  match
    for_of
      (λ grouped reg,
         ComponentUtils.group_push (registration_group reg)
           (ComponentMetadata.displayName (ComponentRegistration.metadata reg))
           grouped)
      regs grouped
  with
  | Normal componentsByCategory =>
      Normal
        (n + length
               (filter
                  (λ reg, ComponentMetadata.removable
                            (ComponentRegistration.metadata reg) ≠ Some false)
                  regs),
         componentsByCategory)
  | TypeError => TypeError
  end.
Proof.
  revert n grouped. induction regs as [|reg regs IH]; intros n grouped; simpl.
  { do 2 f_equal. lia. }
  fold (registration_group reg).
  destruct (ComponentUtils.group_push _ _ grouped) as [grouped'|]; [|done].
  rewrite IH, filter_cons. destruct (for_of _ regs grouped'); [|done].
  destruct (ComponentMetadata.removable (ComponentRegistration.metadata reg))
    as [[]|]; simpl; do 2 f_equal; lia.
Qed.

(** The groups of components with the default label apart: the
    registrations whose group key is [category] are those whose category
    is [category]. *)
Lemma filter_registration_group category (regs : list ComponentRegistration.t) :
  category ≠ "" → category ≠ "Uncategorized 未分类" →
  filter (λ reg, registration_group reg = category) regs =
  filter
    (λ reg, ComponentMetadata.category (ComponentRegistration.metadata reg)
            = Some category) regs.
Proof.
  intros Hempty Hdefault. apply list_filter_iff. intros reg.
  unfold registration_group, string_or.
  destruct (ComponentMetadata.category (ComponentRegistration.metadata reg))
    as [c|]; [destruct (decide (c = "")) as [->|?]|];
    split; congruence.
Qed.

(** X16.  [getRegistryStatistics] throws a TypeError when the group key of
    some registration names a member of [Object.prototype].  Otherwise it
    returns, as does [getComponentsByCategory]: it carries over the three
    fields of [getStatistics], counts as removable the registrations whose
    [removable] is not [false], and lists under each category (the default
    label for an absent or empty one) the display names of its components
    in registration order, unsorted; its groups have the keys and sizes of
    those of [getComponentsByCategory], and for every key but the default
    label [categorizedComponents] holds the size of the group as a
    number. *)
Theorem getRegistryStatistics_summary (s : State) :
  (Exists (λ reg, inherited (registration_group reg) = true)
     (EditorComponentRegistry.getAll s) →
   ComponentUtils.getRegistryStatistics s = TypeError) ∧
  (no_prototype_key registration_group (EditorComponentRegistry.getAll s) →
   ∃ stats grouped,
     ComponentUtils.getRegistryStatistics s = Normal stats ∧
     ComponentUtils.getComponentsByCategory s = Normal grouped ∧
     ComponentUtils.totalComponents stats =
       length (EditorComponentRegistry.getAll s) ∧
     ComponentUtils.addableComponents stats =
       length (EditorComponentRegistry.getAddable s) ∧
     ComponentUtils.removableComponents stats =
       length
         (filter
            (λ reg, ComponentMetadata.removable (ComponentRegistration.metadata reg)
                    ≠ Some false)
            (EditorComponentRegistry.getAll s)) ∧
     ComponentUtils.categorizedComponents stats =
       EditorComponentRegistry.categorizedComponents
         (EditorComponentRegistry.getStatistics s) ∧
     (∀ category,
        ComponentUtils.componentsByCategory stats !! category =
        match filter (λ reg, registration_group reg = category)
                (EditorComponentRegistry.getAll s) with
        | [] => None
        | reg :: group =>
            Some (map (λ reg, ComponentMetadata.displayName
                                (ComponentRegistration.metadata reg))
                    (reg :: group))
        end) ∧
     (∀ category,
        length <$> ComponentUtils.componentsByCategory stats !! category =
        length <$> grouped !! category) ∧
     (∀ category,
        category ≠ "Uncategorized 未分类" →
        ComponentUtils.categorizedComponents stats !! category =
        (λ names, JsNumber (length names))
          <$> ComponentUtils.componentsByCategory stats !! category)).
Proof.
  split.
  - intros Hex. unfold ComponentUtils.getRegistryStatistics.
    rewrite getRegistryStatistics_fold.
    by rewrite (for_of_group_throws registration_group
                  (λ reg, ComponentMetadata.displayName
                            (ComponentRegistration.metadata reg))).
  - intros Hplain.
    destruct (getComponentsByCategory_returns s Hplain) as [grouped Hret].
    unfold ComponentUtils.getRegistryStatistics.
    rewrite getRegistryStatistics_fold.
    destruct (for_of_group_plain registration_group
                (λ reg, ComponentMetadata.displayName
                          (ComponentRegistration.metadata reg))
                (λ grouped reg,
                   ComponentUtils.group_push (registration_group reg)
                     (ComponentMetadata.displayName
                        (ComponentRegistration.metadata reg)) grouped)
                (λ _ _, eq_refl) _ ∅ Hplain) as (names & -> & Hnames').
    assert (∀ category,
      names !! category =
      match filter (λ reg, registration_group reg = category)
              (EditorComponentRegistry.getAll s) with
      | [] => None
      | reg :: group =>
          Some (map (λ reg, ComponentMetadata.displayName
                              (ComponentRegistration.metadata reg))
                  (reg :: group))
      end) as Hnames.
    { intros category. rewrite Hnames', lookup_empty. by destruct (filter _ _). }
    clear Hnames'.
    eexists _, grouped. split; [reflexivity |]. split; [exact Hret |].
    simpl. split_and!.
    + rewrite getStatistics_unfold. simpl.
      unfold EditorComponentRegistry.getAll, JsMap.size, JsMap.values.
      by rewrite length_fmap.
    + rewrite getStatistics_unfold, getAddable_filter. simpl.
      by rewrite getStatistics_fold_addable.
    + done.
    + done.
    + apply Hnames.
    + intros category.
      rewrite Hnames, (getComponentsByCategory_lookup s grouped Hret).
      destruct (filter _ _) as [|r l]; [done |].
      pose proof (sort_Permutation ComponentUtils.registration_order (r :: l)) as Hp.
      apply Permutation_length in Hp.
      cbn [fmap option_fmap option_map]. f_equal. by rewrite length_map, Hp.
    + intros category Hne. rewrite Hnames, getStatistics_tally.
      destruct (decide (category = "")) as [->|Hc].
      * destruct (filter _ _) as [|r l] eqn:E; [done |].
        assert (r ∈ filter (λ reg, registration_group reg = "")
                       (EditorComponentRegistry.getAll s)) as Hr
          by (rewrite E; by left).
        apply list_elem_of_filter in Hr as [Heq _].
        by apply string_or_nonempty in Heq.
      * unfold EditorComponentRegistry.getByCategory.
        rewrite <-filter_registration_group by done.
        destruct (filter _ _) as [|r l] eqn:E.
        { unfold tally_value. by case_decide. }
        assert (r ∈ filter (λ reg, registration_group reg = category)
                       (EditorComponentRegistry.getAll s)) as Hr
          by (rewrite E; by left).
        apply list_elem_of_filter in Hr as [Heq Hin].
        unfold no_prototype_key in Hplain. rewrite Forall_forall in Hplain.
        specialize (Hplain r Hin). rewrite Heq in Hplain.
        unfold tally_value. rewrite Hplain.
        case_decide as Hproto; [by rewrite Hproto in Hplain |].
        simpl. by rewrite length_map.
Qed.

Lemma getRegistryStatistics_summary_witness :
  no_prototype_key registration_group
    (EditorComponentRegistry.getAll scenario_audio) ∧
  (∃ stats,
     ComponentUtils.getRegistryStatistics scenario_audio = Normal stats ∧
     "Audio" ≠ "Uncategorized 未分类" ∧
     ComponentUtils.categorizedComponents stats !! "Audio" = Some (JsNumber 2) ∧
     ComponentUtils.componentsByCategory stats !! "Audio"
       = Some ["Mixer"; "Source"] ∧
     ComponentUtils.componentsByCategory stats !! "Uncategorized 未分类"
       = Some ["Listener"] ∧
     ComponentUtils.categorizedComponents stats !! "Uncategorized 未分类" = None) ∧
  Exists (λ reg, inherited (registration_group reg) = true)
    (EditorComponentRegistry.getAll scenario_constructor) ∧
  ComponentUtils.getRegistryStatistics scenario_constructor = TypeError.
Proof.
  assert (no_prototype_key registration_group
            (EditorComponentRegistry.getAll scenario_audio)) as Hplain
    by (repeat constructor).
  assert (Exists (λ reg, inherited (registration_group reg) = true)
            (EditorComponentRegistry.getAll scenario_constructor)) as Hex
    by (by left).
  split_and!; [exact Hplain | | exact Hex |].
  - destruct (getRegistryStatistics_summary scenario_audio) as (_ & Hreturns).
    destruct (Hreturns Hplain)
      as (stats & grouped & Hret & _ & _ & _ & _ & Hcat & Hnames & _ & Hcount).
    exists stats. split; [exact Hret |]. split; [discriminate |].
    rewrite (Hcount "Audio") by discriminate.
    rewrite !Hnames, Hcat. split_and!; reflexivity.
  - destruct (getRegistryStatistics_summary scenario_constructor) as (Hthrows & _).
    exact (Hthrows Hex).
Defined.

(** ** [getAvailableComponentTypes] *)

(** X17.  In a reachable state [getAvailableComponentTypes] lists exactly
    the registered types that [canAddComponent] accepts, each once and
    paired with the registration [get] returns for it, and as many entries
    as [getStatistics] counts addable components. *)
Theorem available_types_are_registered_and_addable (s : State) :
  reachable s →
  (∀ T,
     T ∈ map fst (ComponentUtils.getAvailableComponentTypes s) ↔
     EditorComponentRegistry.has T s = true ∧
     ComponentUtils.canAddComponent T s = true) ∧
  NoDup (map fst (ComponentUtils.getAvailableComponentTypes s)) ∧
  (∀ entry,
     entry ∈ ComponentUtils.getAvailableComponentTypes s →
     EditorComponentRegistry.get entry.1 s = Some entry.2 ∧
     ComponentRegistration.componentType entry.2 = entry.1) ∧
  length (ComponentUtils.getAvailableComponentTypes s) =
    EditorComponentRegistry.addableComponents
      (EditorComponentRegistry.getStatistics s).
Proof.
  intros Hr.
  assert (ComponentUtils.getAvailableComponentTypes s ≡ₚ
          map (λ reg, (ComponentRegistration.componentType reg, reg))
            (EditorComponentRegistry.getAddable s)) as Hperm
    by apply sort_Permutation.
  assert (map fst (ComponentUtils.getAvailableComponentTypes s) ≡ₚ
          map ComponentRegistration.componentType
            (EditorComponentRegistry.getAddable s)) as Hfst.
  { rewrite Hperm, map_map. done. }
  assert (∀ reg,
    reg ∈ EditorComponentRegistry.getAddable s ↔
    reg ∈ EditorComponentRegistry.getAll s ∧
    ComponentMetadata.addable (ComponentRegistration.metadata reg) ≠ Some false)
    as Haddable.
  { intros reg. rewrite getAddable_filter, list_elem_of_filter. tauto. }
  split_and!.
  - intros T. rewrite Hfst, list_elem_of_fmap.
    unfold ComponentUtils.canAddComponent, ComponentUtils.getComponentRegistration,
      EditorComponentRegistry.has, JsMap.has.
    fold (EditorComponentRegistry.get T s). split.
    + intros (reg & -> & [Hin Hadd]%Haddable).
      rewrite (getAll_get s reg Hr Hin). simpl. split; [done |].
      by destruct (ComponentMetadata.addable _) as [[]|].
    + destruct (EditorComponentRegistry.get T s) as [reg|] eqn:Hget; [|by intros []].
      simpl. intros [_ Hadd]. exists reg.
      assert ((T, reg) ∈ registrations s) as Hin
        by (by apply JsMap_get_Some_elem_of).
      split.
      * symmetry. by apply (inv_key _ (reachable_inv s Hr) T reg).
      * apply Haddable. split; [by eapply JsMap_get_Some_values |].
        intros Hf. by rewrite Hf in Hadd.
  - rewrite Hfst.
    apply (sublist_NoDup _
             (map ComponentRegistration.componentType
                (EditorComponentRegistry.getAll s))).
    + rewrite getAll_types by done. apply (inv_NoDup _ (reachable_inv s Hr)).
    + apply fmap_sublist. rewrite getAddable_filter. apply sublist_filter.
  - intros entry. rewrite Hperm. intros (reg & -> & [Hin _]%Haddable)%list_elem_of_fmap.
    simpl. split; [by apply getAll_get | done].
  - rewrite Hperm, length_map, getStatistics_unfold. simpl.
    by rewrite getStatistics_fold_addable, getAddable_filter.
Qed.

Lemma available_types_are_registered_and_addable_witness :
  reachable scenario_gameplay ∧
  map fst (ComponentUtils.getAvailableComponentTypes scenario_gameplay)
    = [2%positive; 1%positive] ∧
  NoDup (map fst (ComponentUtils.getAvailableComponentTypes scenario_gameplay)).
Proof.
  pose proof reachable_scenario_gameplay as Hr.
  split_and!; [exact Hr | reflexivity |].
  apply (available_types_are_registered_and_addable scenario_gameplay Hr).
Defined.

(** ** The property helpers *)

(** X18.  The property helpers of ComponentUtils read the registration and
    not the property store: for an unregistered type [getPropertyMetadata]
    returns nothing and [getPropertiesByCategory] returns no group, whatever
    was declared.  [getPropertiesByCategory] throws a TypeError when the
    group key of some property of the registration names a member of
    [Object.prototype].  Otherwise it returns: every property the helper
    [getPropertyMetadata] returns is listed in the group keyed by its
    category ("General 通用" when absent or empty), a group holds exactly the
    entries of its key, and no group is empty or keyed by the empty
    string. *)
Theorem property_helpers_read_the_registration (s : State) (T : ComponentType) :
  (EditorComponentRegistry.get T s = None →
   (∀ name, ComponentUtils.getPropertyMetadata T name s = None) ∧
   (ComponentUtils.getPropertiesByCategory T s).1 = Normal ∅) ∧
  (Exists (λ entry, inherited (property_group entry) = true)
     (registered_properties T s) →
   (ComponentUtils.getPropertiesByCategory T s).1 = TypeError) ∧
  (no_prototype_key property_group (registered_properties T s) →
   ∃ grouped,
     (ComponentUtils.getPropertiesByCategory T s).1 = Normal grouped ∧
     (∀ name metadata,
        ComponentUtils.getPropertyMetadata T name s = Some metadata →
        ∃ group,
          grouped !! property_group (name, metadata) = Some group ∧
          (name, metadata) ∈ group) ∧
     (∀ category group,
        grouped !! category = Some group →
        group ≠ [] ∧ category ≠ "" ∧
        group ≡ₚ filter (λ entry, property_group entry = category)
                   (registered_properties T s))).
Proof.
  split_and!.
  - intros Hget. split.
    + intros name. rewrite utils_getPropertyMetadata_registered.
      unfold registered_properties. by rewrite Hget.
    + rewrite getPropertiesByCategory_fst.
      unfold registered_properties. rewrite Hget. simpl. by rewrite fmap_empty.
  - apply getPropertiesByCategory_throws.
  - intros Hplain.
    destruct (getPropertiesByCategory_returns T s Hplain) as [grouped Hret].
    exists grouped. split; [done |].
    pose proof (getPropertiesByCategory_lookup T s grouped Hret) as Hlookup.
    split.
    + intros name metadata. rewrite utils_getPropertyMetadata_registered.
      intros Hin%JsMap_get_Some_elem_of. rewrite Hlookup.
      assert ((name, metadata) ∈
              filter (λ entry, property_group entry = property_group (name, metadata))
                (registered_properties T s)) as Hf
        by (by apply list_elem_of_filter).
      destruct (filter _ _) as [|r l] eqn:E; [by apply elem_of_nil in Hf |].
      eexists. split; [done |]. by apply elem_of_sort.
    + intros category group. rewrite Hlookup.
      destruct (filter _ _) as [|r l] eqn:E; [done |].
      pose proof (sort_Permutation (λ a : string * PropertyMetadata.t,
                                      PropertyMetadata.order a.2) (r :: l)) as Hp.
      remember (JsArray.sort _ (r :: l)) as out eqn:Hout. clear Hout.
      intros [= <-]. split_and!.
      * intros Hnil. rewrite Hnil in Hp. by apply Permutation_nil_cons in Hp.
      * assert (r ∈ filter (λ entry, property_group entry = category)
                       (registered_properties T s)) as Hr
          by (rewrite E; by left).
        apply list_elem_of_filter in Hr as [<- _].
        by apply string_or_nonempty.
      * done.
Qed.

Lemma property_helpers_read_the_registration_witness :
  (EditorComponentRegistry.get 1 scenario_unregistered = None ∧
   is_Some (Decorators.getPropertyMetadata 1 "fov" scenario_unregistered) ∧
   ComponentUtils.getPropertyMetadata 1 "fov" scenario_unregistered = None ∧
   (ComponentUtils.getPropertiesByCategory 1 scenario_unregistered).1 = Normal ∅) ∧
  (Exists (λ entry, inherited (property_group entry) = true)
     (registered_properties 1 scenario_toString) ∧
   (ComponentUtils.getPropertiesByCategory 1 scenario_toString).1 = TypeError) ∧
  (no_prototype_key property_group (registered_properties 1 scenario_gameplay) ∧
   ∃ grouped group,
     (ComponentUtils.getPropertiesByCategory 1 scenario_gameplay).1
       = Normal grouped ∧
     grouped !! "Stats" = Some group ∧
     ("hp", property_options TRange (Some "Stats") (Some 1%Z)) ∈ group).
Proof.
  split; [|split].
  - destruct (property_helpers_read_the_registration scenario_unregistered 1)
      as (Hnone & _).
    destruct (Hnone eq_refl) as [Hget Hgroups].
    split_and!; [reflexivity | by eexists | apply Hget | exact Hgroups].
  - assert (Exists (λ entry, inherited (property_group entry) = true)
              (registered_properties 1 scenario_toString)) as Hex by (by left).
    destruct (property_helpers_read_the_registration scenario_toString 1)
      as (_ & Hthrows & _).
    split; [exact Hex | exact (Hthrows Hex)].
  - assert (no_prototype_key property_group
              (registered_properties 1 scenario_gameplay)) as Hplain
      by (repeat constructor).
    destruct (property_helpers_read_the_registration scenario_gameplay 1)
      as (_ & _ & Hreturns).
    destruct (Hreturns Hplain) as (grouped & Hret & Hlisted & _).
    destruct (Hlisted "hp" (property_options TRange (Some "Stats") (Some 1%Z)))
      as (group & Hgroup & Hin); [reflexivity |].
    split; [exact Hplain |]. exists grouped, group.
    split_and!; [exact Hret | exact Hgroup | exact Hin].
Defined.

(** X19.  The queries that make a new map for a type without one do not
    disturb anything: after [getPropertiesByCategory] (and so after the
    helper [getAllPropertyMetadata]) the registrations, the two metadata
    maps, the declared types and the content of every property map are as
    before, and every query answers as before. *)
Theorem property_queries_change_nothing (s : State) (T : ComponentType) :
  let s' := (ComponentUtils.getPropertiesByCategory T s).2 in
  registrations s' = registrations s ∧
  componentMetadataMap s' = componentMetadataMap s ∧
  propertyMetadataMap s' = propertyMetadataMap s ∧
  globalComponentRegistry s' = globalComponentRegistry s ∧
  (∀ l, deref s' l = deref s l) ∧
  (∀ U,
     declared_properties U s' = declared_properties U s ∧
     registered_properties U s' = registered_properties U s ∧
     (ComponentUtils.getPropertiesByCategory U s').1 =
       (ComponentUtils.getPropertiesByCategory U s).1).
Proof.
  intros s'.
  assert (s' = (ComponentUtils.getAllPropertyMetadata T s).2) as ->.
  { subst s'. unfold ComponentUtils.getPropertiesByCategory.
    destruct (ComponentUtils.getAllPropertyMetadata T s) as [properties s1].
    by destruct (for_of _ _ _). }
  destruct (utils_query_frame T s) as (E1 & E2 & E3 & E4).
  assert (∀ l, deref (ComponentUtils.getAllPropertyMetadata T s).2 l = deref s l)
    as Hderef.
  { intros l. unfold ComponentUtils.getAllPropertyMetadata, deref, new_Map.
    destruct (ComponentUtils.getComponentRegistration T s); [done |]. simpl.
    destruct (decide (fresh (dom (heap s)) = l)) as [<-|Hne].
    - by rewrite lookup_insert_eq, fresh_not_allocated.
    - by rewrite lookup_insert_ne. }
  assert (∀ U,
    registered_properties U (ComponentUtils.getAllPropertyMetadata T s).2 =
    registered_properties U s) as Hreg.
  { intros U. unfold registered_properties, EditorComponentRegistry.get.
    rewrite E4. destruct (JsMap.get U (registrations s)); [|done].
    by rewrite Hderef. }
  split_and!; try done.
  intros U. split_and!.
  - unfold declared_properties. rewrite E2.
    destruct (propertyMetadataMap s !! U); [|done]. by rewrite Hderef.
  - apply Hreg.
  - by rewrite !getPropertiesByCategory_fst, Hreg.
Qed.

(** ** The sort of the helpers, for every [order] *)

Lemma sort_sorted_by_order_or_999 {A} (ord : A → option Z) (l : list A) :
  sorted_by_order_or_999 ord l
    (JsArray.sort (ComponentUtils.compareOrder ord) l).
Proof.
  pose proof (sort_StronglySorted ord l) as Hs.
  split.
  - apply sort_Permutation.
  - intros i j a b Hij Hi Hj.
    apply (StronglySorted_lookup_lt _ _ i j a b Hs Hij Hi Hj).
  - intros k. apply (sort_filter_key ord).
  - intros i j a b o Hi Hj Ha Ho H999 Hb.
    destruct (Nat.lt_trichotomy i j) as [?|[->|Hji]]; [done | |].
    + rewrite Hi in Hj. injection Hj as ->. congruence.
    + pose proof (StronglySorted_lookup_lt _ _ j i b a Hs Hji Hj Hi) as Hle.
      simpl in Hle. rewrite Ha, Hb in Hle. simpl in Hle.
      rewrite decide_False in Hle by done. lia.
Qed.

(** X20.  Each sorted output of the query helpers (the addable components,
    each group of components, each group of properties) is a stable sort
    of its input by [order || 999]: it has the same entries, ascending in
    that key, the entries of one key in their prior order; since [0] is
    falsy an explicit order of [0] counts as 999, so every entry with a
    non-zero order below 999 comes before every entry of order [0]. *)
Theorem helpers_sort_by_order_or_999 (s : State) (T : ComponentType) :
  sorted_by_order_or_999 (λ a, ComponentUtils.registration_order a.2)
    (map (λ reg, (ComponentRegistration.componentType reg, reg))
       (EditorComponentRegistry.getAddable s))
    (ComponentUtils.getAvailableComponentTypes s) ∧
  (∀ grouped category group,
     ComponentUtils.getComponentsByCategory s = Normal grouped →
     grouped !! category = Some group →
     sorted_by_order_or_999 ComponentUtils.registration_order
       (filter (λ reg, registration_group reg = category)
          (EditorComponentRegistry.getAll s))
       group) ∧
  (∀ grouped category group,
     (ComponentUtils.getPropertiesByCategory T s).1 = Normal grouped →
     grouped !! category = Some group →
     sorted_by_order_or_999 (λ entry, PropertyMetadata.order entry.2)
       (filter (λ entry, property_group entry = category)
          (registered_properties T s))
       group).
Proof.
  split_and!.
  - apply sort_sorted_by_order_or_999.
  - intros grouped category group Hret.
    rewrite (getComponentsByCategory_lookup s grouped) by done.
    destruct (filter _ _) as [|reg l]; [done |]. intros [= <-].
    apply (sort_sorted_by_order_or_999 ComponentUtils.registration_order (reg :: l)).
  - intros grouped category group Hret.
    rewrite (getPropertiesByCategory_lookup T s grouped) by done.
    destruct (filter _ _) as [|entry l]; [done |]. intros [= <-].
    apply (sort_sorted_by_order_or_999 (λ entry, PropertyMetadata.order entry.2)
             (entry :: l)).
Qed.

Lemma helpers_sort_by_order_or_999_witness :
  map fst (ComponentUtils.getAvailableComponentTypes scenario_zero_order)
    = [2%positive; 1%positive; 3%positive] ∧
  ∃ grouped group,
    ComponentUtils.getComponentsByCategory scenario_zero_order = Normal grouped ∧
    grouped !! "Uncategorized 未分类" = Some group ∧
    map ComponentRegistration.componentType group
      = [2%positive; 1%positive; 3%positive] ∧
    sorted_by_order_or_999 ComponentUtils.registration_order
      (filter (λ reg, registration_group reg = "Uncategorized 未分类")
         (EditorComponentRegistry.getAll scenario_zero_order))
      group.
Proof.
  split; [reflexivity |].
  eexists _, _. split; [reflexivity |]. split; [reflexivity |].
  split; [reflexivity |].
  destruct (helpers_sort_by_order_or_999 scenario_zero_order 1) as (_ & Hgroups & _).
  eapply (Hgroups _ "Uncategorized 未分类"); reflexivity.
Defined.

(** ** [getAllPropertyMetadata] of the metadata store *)

(** X21.  In a reachable state the map [getAllPropertyMetadata T] returns
    has exactly the entries declared for [T] (none when nothing was
    declared), and the call changes no metadata and no existing map; when
    nothing was declared the returned empty map is a new object that the
    store does not keep, so it is the property map of no type. *)
Theorem store_query_returns_declared_entries (s : State) (T : ComponentType) :
  reachable s →
  let query := Decorators.getAllPropertyMetadata T s in
  JsMap.entries (deref query.2 query.1) = declared_properties T s ∧
  (∀ name,
     JsMap.get name (deref query.2 query.1) =
     Decorators.getPropertyMetadata T name s) ∧
  propertyMetadataMap query.2 = propertyMetadataMap s ∧
  componentMetadataMap query.2 = componentMetadataMap s ∧
  registrations query.2 = registrations s ∧
  (∀ l, deref query.2 l = deref s l) ∧
  (declared_properties T s = [] →
   ∀ U, propertyMetadataMap query.2 !! U ≠ Some query.1).
Proof.
  intros Hr query. subst query.
  destruct (store_query_frame T s) as (E1 & E2 & E3 & E4).
  pose proof (fresh_not_allocated s) as Hfresh.
  assert (JsMap.entries
            (deref (Decorators.getAllPropertyMetadata T s).2
               (Decorators.getAllPropertyMetadata T s).1) =
          declared_properties T s) as Hentries.
  { unfold declared_properties, Decorators.getAllPropertyMetadata, deref, new_Map.
    destruct (propertyMetadataMap s !! T); simpl; [done |].
    by rewrite lookup_insert_eq. }
  split_and!; try done.
  - intros name. rewrite getPropertyMetadata_declared, <-Hentries. done.
  - intros l. unfold Decorators.getAllPropertyMetadata, deref, new_Map.
    destruct (propertyMetadataMap s !! T); [done |]. simpl.
    destruct (decide (fresh (dom (heap s)) = l)) as [<-|Hne].
    + by rewrite lookup_insert_eq, Hfresh.
    + by rewrite lookup_insert_ne.
  - intros Hnil%declared_properties_nil U; [|done]. rewrite E2.
    unfold Decorators.getAllPropertyMetadata. rewrite Hnil. simpl.
    intros HU. apply (inv_allocated _ (reachable_heap_inv s Hr)) in HU.
    rewrite Hfresh in HU. by destruct HU.
Qed.

Lemma store_query_returns_declared_entries_witness :
  let query := Decorators.getAllPropertyMetadata 1 scenario_gameplay in
  reachable scenario_gameplay ∧
  JsMap.entries (deref query.2 query.1)
    = [("hp", property_options TRange (Some "Stats") (Some 1%Z))].
Proof.
  intros query. pose proof reachable_scenario_gameplay as Hr.
  split; [exact Hr |].
  destruct (store_query_returns_declared_entries scenario_gameplay 1 Hr)
    as (Hentries & _).
  fold query in Hentries. rewrite Hentries. reflexivity.
Defined.
